(** * briefcase.commands.base: configuration materialisation and cached download

    A shallow embedding of [src/briefcase/commands/base.py]:
    - [create_config]: optimistic construction of a configuration object,
      with a diagnostic built from the constructor signature on [TypeError];
    - [BaseCommand.parse_config]: reading the configuration file;
    - [BaseCommand.download_url]: cached download with a progress bar.

    Python values that the code only passes around are kept abstract or
    small; the interpreter services the code relies on (keyword-argument
    binding, [set] iteration, [int / int], [pathlib], [str.split]) are
    written out. Library collaborators ([urllib.parse.urlparse], the
    builtin [int] on strings, [requests.get], [briefcase.config.parse_config])
    are Section variables. *)

From Stdlib Require Import ZArith Lia Ascii String List.
From Stdlib.Strings Require Import Byte.
From stdpp Require Import base option list gmap strings pretty.

Local Open Scope string_scope.
Local Open Scope Z_scope.

(** ** Exceptions *)

(** The exception classes the module raises or lets through. [OSError]
    stands for any [OSError] subclass other than [FileNotFoundError];
    [ExternalError] for an exception raised by a collaborator library. *)
Inductive exn : Type :=
  | TypeError (detail : string)
  | ValueError (detail : string)
  | ZeroDivisionError
  | OverflowError
  | FileNotFoundError (filename : list string)
  | OSError (detail : string)
  | BriefcaseConfigError (msg : string)
  | MissingNetworkResourceError (url : string)
  | BadNetworkResourceError (url : string) (status_code : Z)
  | ExternalError (name : string).

(** A computation that returns or raises. *)
Definition result (A : Type) : Type := exn + A.

Definition is_TypeError (e : exn) : bool :=
  match e with TypeError _ => true | _ => false end.

Definition is_FileNotFoundError (e : exn) : bool :=
  match e with FileNotFoundError _ => true | _ => false end.

(** The two errors [download_url] raises for an HTTP status. *)
Definition is_status_error (e : exn) : bool :=
  match e with
  | MissingNetworkResourceError _ | BadNetworkResourceError _ _ => true
  | _ => false
  end.

(** ** Python strings *)

Module PyStr.

(** ["'{arg}'".format(arg=arg)] *)
Definition quote (arg : string) : string := "'" ++ arg ++ "'".

(** [sep.join(parts)] *)
Definition join (sep : string) (parts : list string) : string :=
  String.concat sep parts.

(** [s * n]: [n] copies of [s], none when [n <= 0]. *)
Definition mul (s : string) (n : Z) : string :=
  String.concat "" (replicate (Z.to_nat n) s).

(** [s.split(sep)] for a one-character separator: the pieces between
    the separators, so always at least one piece. *)
Fixpoint split (sep : ascii) (s : string) : list string :=
  match s with
  | EmptyString => [EmptyString]
  | String c rest =>
      if Ascii.eqb c sep then EmptyString :: split sep rest
      else match split sep rest with
           | piece :: pieces => String c piece :: pieces
           | [] => [String c EmptyString]
           end
  end.

(** [l[-1]] on a list of strings known to be non-empty. *)
Definition last (l : list string) : string := List.last l EmptyString.

(** Whether [c] occurs in [s]. *)
Fixpoint contains (c : ascii) (s : string) : bool :=
  match s with
  | EmptyString => false
  | String d rest => Ascii.eqb d c || contains c rest
  end.

(** [s.endswith(c)] for a single character. *)
Fixpoint endswith (c : ascii) (s : string) : bool :=
  match s with
  | EmptyString => false
  | String d EmptyString => Ascii.eqb d c
  | String _ rest => endswith c rest
  end.

End PyStr.

(** ** Configuration values and constructor signatures *)

(** The values a configuration mapping holds (what the TOML reader
    produces). *)
#[warnings="-register-all"]
Inductive value : Type :=
  | VNone
  | VBool (b : bool)
  | VInt (n : Z)
  | VStr (s : string)
  | VList (items : list value).

(** [inspect.Parameter.kind] *)
Inductive param_kind : Type :=
  | POSITIONAL_ONLY
  | POSITIONAL_OR_KEYWORD
  | VAR_POSITIONAL
  | KEYWORD_ONLY
  | VAR_KEYWORD.

Global Instance param_kind_eq_dec : EqDecision param_kind.
Proof. solve_decision. Defined.

(** [inspect.Parameter]: [default = None] is [inspect._empty]. *)
Record param : Type := Param {
  name : string;
  kind : param_kind;
  default : option value
}.

(** What the body of [__init__] receives once the call's arguments are
    bound: the named parameters other than the receiver, and the
    content of the [**] parameter. *)
Record bound_args : Type := BoundArgs {
  named : gmap string value;
  var_keyword : gmap string value
}.

(** An instance: its attribute dictionary. *)
Definition instance : Type := gmap string value.

(** A class as [create_config] sees it: the parameters of
    [klass.__init__] in declaration order (the receiver first, as
    [inspect.signature(klass.__init__)] reports it for a function
    defined in Python), and what the body does with bound arguments. *)
Record klass : Type := Klass {
  init_params : list param;
  init_body : bound_args -> result instance
}.

(** ** The keyword call of a class on a configuration mapping *)

Module Call.

Definition is_positional (p : param) : bool :=
  match kind p with
  | POSITIONAL_ONLY | POSITIONAL_OR_KEYWORD => true
  | _ => false
  end.

Definition takes_keyword (p : param) : bool :=
  match kind p with
  | POSITIONAL_OR_KEYWORD | KEYWORD_ONLY => true
  | _ => false
  end.

Definition is_variadic (p : param) : bool :=
  match kind p with
  | VAR_POSITIONAL | VAR_KEYWORD => true
  | _ => false
  end.

Definition has_var_keyword (ps : list param) : bool :=
  existsb (fun p => bool_decide (kind p = VAR_KEYWORD)) ps.

(** The instance is the one positional argument of the call: it is
    taken by the first parameter when that one is positional, and by
    [*args] when the signature starts with it. The result is the
    parameters left for the keywords. *)
Definition bind_receiver (ps : list param) : result (option param * list param) :=
  match ps with
  | p :: rest =>
      if is_positional p then inr (Some p, rest)
      else if bool_decide (kind p = VAR_POSITIONAL) then inr (None, ps)
      else inl (TypeError "__init__() takes 0 positional arguments but 1 was given")
  | [] => inl (TypeError "__init__() takes 0 positional arguments but 1 was given")
  end.

(** The parameter a keyword [k] selects, among [ps]. *)
Definition keyword_target (ps : list param) (k : string) : option param :=
  List.find (fun p => takes_keyword p && bool_decide (name p = k)) ps.

(** Whether the keyword [k] names the parameter that already holds
    the instance. *)
Definition names_receiver (receiver : option param) (k : string) : bool :=
  match receiver with
  | Some r => takes_keyword r && bool_decide (name r = k)
  | None => false
  end.

(** Distribution of the keywords of [config] over named parameters and
    [**]: a keyword naming the receiver is a second value for it, a
    keyword naming no parameter goes to [**] or is unexpected. *)
Definition bind_keyword (receiver : option param) (ps : list param)
    (acc : result bound_args) (kv : string * value) : result bound_args :=
  match acc with
  | inl e => inl e
  | inr b =>
      match keyword_target ps kv.1 with
      | Some _ => inr (BoundArgs (<[kv.1 := kv.2]> (named b)) (var_keyword b))
      | None =>
          if names_receiver receiver kv.1
          then inl (TypeError ("__init__() got multiple values for argument "
                                 ++ PyStr.quote kv.1))
          else if has_var_keyword ps
          then inr (BoundArgs (named b) (<[kv.1 := kv.2]> (var_keyword b)))
          else inl (TypeError ("__init__() got an unexpected keyword argument "
                                 ++ PyStr.quote kv.1))
      end
  end.

(** Whether the call accepts the keyword [k]. *)
Definition accepts (receiver : option param) (ps : list param) (k : string) : bool :=
  match keyword_target ps k with
  | Some _ => true
  | None => negb (names_receiver receiver k) && has_var_keyword ps
  end.

(** Whether every key of [config] is accepted. *)
Definition keys_accepted (receiver : option param) (ps : list param)
    (config : gmap string value) : bool :=
  forallb (fun kv : string * value => accepts receiver ps kv.1) (map_to_list config).

(** Whether [config] gives, by keyword, every parameter of [ps] that
    is neither variadic nor has a default. *)
Definition required_given (ps : list param) (config : gmap string value) : bool :=
  forallb (fun p => is_variadic p
                    || bool_decide (is_Some (default p))
                    || (takes_keyword p && bool_decide (is_Some (config !! name p))))
          ps.

Definition bind_keywords (receiver : option param) (ps : list param)
    (config : gmap string value) : result bound_args :=
  fold_left (bind_keyword receiver ps) (map_to_list config)
            (inr (BoundArgs ∅ ∅)).

(** Parameters no keyword filled take their default; one without a
    default is a missing argument. *)
Fixpoint fill_defaults (ps : list param) (b : bound_args) : result bound_args :=
  match ps with
  | [] => inr b
  | p :: rest =>
      if is_variadic p then fill_defaults rest b
      else match named b !! name p with
           | Some _ => fill_defaults rest b
           | None =>
               match default p with
               | Some d =>
                   fill_defaults rest (BoundArgs (<[name p := d]> (named b)) (var_keyword b))
               | None =>
                   inl (TypeError ("__init__() missing 1 required argument: " ++ PyStr.quote (name p)))
               end
           end
  end.

(** Binding of the arguments when a class is called with the entries of
    [config] as keywords. *)
Definition bind (ps : list param) (config : gmap string value) : result bound_args :=
  match bind_receiver ps with
  | inl e => inl e
  | inr (receiver, rest) =>
      match bind_keywords receiver rest config with
      | inl e => inl e
      | inr b => fill_defaults rest b
      end
  end.

(** The call itself: bind the arguments, then run the body. *)
Definition construct (k : klass) (config : gmap string value) : result instance :=
  match bind (init_params k) config with
  | inl e => inl e
  | inr b => init_body k b
  end.

End Call.

(** ** [create_config] *)

Section CreateConfig.

(** The order in which iterating a [set] of strings yields its members.
    CPython derives it from the strings' hashes, which are salted per
    process, so it is left open here; the theorems assume of it only
    that each member comes exactly once. *)
Variable set_iter : gset string -> list string.

(** The set comprehension over
    [inspect.signature(klass.__init__).parameters.items()]. *)
Definition required_args (k : klass) : gset string :=
  list_to_set
    (map name
       (List.filter
          (fun p => bool_decide (default p = None)
                    && negb (bool_decide (name p ∈ ["self"; "kwargs"])))
          (init_params k))).

(** [required_args - config.keys()] *)
Definition missing_args (k : klass) (config : gmap string value) : gset string :=
  required_args k ∖ dom config.

(** [', '.join(...)] over the members of [missing_args], each quoted. *)
Definition missing (k : klass) (config : gmap string value) : string :=
  PyStr.join ", " (map PyStr.quote (set_iter (missing_args k config))).

(** ["{msg} is incomplete (missing {missing})".format(...)] *)
Definition incomplete_message (msg missing : string) : string :=
  msg ++ " is incomplete (missing " ++ missing ++ ")".

Definition create_config (k : klass) (config : gmap string value) (msg : string)
  : result instance :=
  match Call.construct k config with
  | inr obj => inr obj
  | inl (TypeError _) =>
      inl (BriefcaseConfigError (incomplete_message msg (missing k config)))
  | inl e => inl e
  end.

End CreateConfig.

(** ** Integer true division, as [int(a / b)] computes it *)

Module PyNum.

(** [floor (log2 (a / b))] for positive [a] and [b]. *)
Definition floor_log2_quot (a b : Z) : Z :=
  let l := Z.log2 a - Z.log2 b in
  if 0 <=? l
  then (if b * 2 ^ l <=? a then l else l - 1)
  else (if b <=? a * 2 ^ (- l) then l else l - 1).

(** The integer nearest to [n / d], ties to the even one. *)
Definition round_half_even (n d : Z) : Z :=
  let q := n / d in
  let r := n mod d in
  if 2 * r <? d then q
  else if d <? 2 * r then q + 1
  else if Z.even q then q else q + 1.

(** [a / b] on two positive [int]s is the binary64 float nearest to
    the exact quotient: [m * 2 ^ e] with [m] of at most 53 bits and
    [e] at least -1074, or an overflow from [2 ^ 1024] on. *)
Definition truediv (a b : Z) : option (Z * Z) :=
  if a =? 0 then Some (0, 0)
  else
    let e := Z.max (floor_log2_quot a b - 52) (- 1074) in
    let m := if 0 <=? e
             then round_half_even a (b * 2 ^ e)
             else round_half_even (a * 2 ^ (- e)) b in
    if (0 <=? e) && (2 ^ 1024 <=? m * 2 ^ e) then None else Some (m, e).

(** [int(x)] on a non-negative float [m * 2 ^ e]: the integral part. *)
Definition trunc (m e : Z) : Z :=
  if 0 <=? e then m * 2 ^ e else m / 2 ^ (- e).

(** [int(a / b)] on two [int]s. *)
Definition int_truediv (a b : Z) : result Z :=
  if b =? 0 then inl ZeroDivisionError
  else match truediv (Z.abs a) (Z.abs b) with
       | None => inl OverflowError
       | Some (m, e) => inr (Z.sgn a * Z.sgn b * trunc m e)
       end.

End PyNum.

(** ** Paths and the file system *)

Module Fs.

(** A [pathlib] path: its components below the root. *)
Abbreviation path := (list string).

Inductive node : Type :=
  | Dir
  | File (data : list byte).

(** The file system: what is at each resolved path. The root is a
    directory; there are no links and no permissions. *)
Abbreviation tree := (gmap (list string) node).

Inductive walk_error : Type := ENOENT | ENOTDIR.

Definition lookup_node (t : tree) (p : path) : option node :=
  match p with
  | [] => Some Dir
  | _ => t !! p
  end.

Definition is_dir (t : tree) (p : path) : bool :=
  match lookup_node t p with
  | Some Dir => true
  | _ => false
  end.

(** One component further from the directory [cur]. *)
Definition step (cur : path) (c : string) : path :=
  if bool_decide (c = "..") then removelast cur
  else if bool_decide (c = "" \/ c = ".") then cur
  else (cur ++ [c])%list.

(** Where the components [p] lead from the directory [cur]; every
    component but the last has to be looked up in a directory. *)
Fixpoint resolve_from (t : tree) (cur : path) (p : path) : walk_error + path :=
  match p with
  | [] => inr cur
  | c :: rest =>
      if is_dir t cur then resolve_from t (step cur c) rest
      else inl (match lookup_node t cur with
                | Some _ => ENOTDIR
                | None => ENOENT
                end)
  end.

Definition resolve (t : tree) (p : path) : walk_error + path :=
  resolve_from t [] p.

(** Where [p] leads from [cur] when every directory on the way is
    there, and whether it is. *)
Definition walk (cur : path) (p : path) : path := fold_left step p cur.

Fixpoint all_dirs (t : tree) (cur : path) (p : path) : bool :=
  match p with
  | [] => true
  | c :: rest => is_dir t (step cur c) && all_dirs t (step cur c) rest
  end.

(** The directories are the same in [t] and [t']. *)
Definition same_dirs (t t' : tree) : Prop := forall x, is_dir t x = is_dir t' x.

(** No such file or directory: what [open] reports as
    [FileNotFoundError]. *)
Definition absent (t : tree) (p : path) : bool :=
  match resolve t p with
  | inr q => bool_decide (lookup_node t q = None)
  | inl ENOENT => true
  | inl ENOTDIR => false
  end.

(** [p.exists()] *)
Definition exists_ (t : tree) (p : path) : bool :=
  match resolve t p with
  | inr q => bool_decide (is_Some (lookup_node t q))
  | inl _ => false
  end.

(** [p.mkdir(parents=True, exist_ok=True)]: every missing directory on
    the way is created; a file on the way is an error. *)
Fixpoint mkdir_from (t : tree) (cur : path) (p : path) : result tree :=
  match p with
  | [] => inr t
  | c :: rest =>
      let nxt := step cur c in
      match lookup_node t nxt with
      | Some Dir => mkdir_from t nxt rest
      | Some (File _) => inl (OSError "mkdir: not a directory")
      | None => mkdir_from (<[nxt := Dir]> t) nxt rest
      end
  end.

Definition mkdir (t : tree) (p : path) : result tree := mkdir_from t [] p.

Definition walk_exn (p : path) (e : walk_error) : exn :=
  match e with
  | ENOENT => FileNotFoundError p
  | ENOTDIR => OSError "NotADirectoryError"
  end.

(** [open(p)]: the content of the file at [p]. *)
Definition open_read (t : tree) (p : path) : result (list byte) :=
  match resolve t p with
  | inl e => inl (walk_exn p e)
  | inr q =>
      match lookup_node t q with
      | Some (File data) => inr data
      | Some Dir => inl (OSError "IsADirectoryError")
      | None => inl (FileNotFoundError p)
      end
  end.

(** [open(p, 'wb')]: the file at [p] is created or emptied; the handle
    is the resolved path. *)
Definition open_wb (t : tree) (p : path) : result (tree * path) :=
  match resolve t p with
  | inl e => inl (walk_exn p e)
  | inr q =>
      match lookup_node t q with
      | Some Dir => inl (OSError "IsADirectoryError")
      | _ => inr (<[q := File []]> t, q)
      end
  end.

(** [f.write(data)] on a handle opened for writing. *)
Definition write (t : tree) (f : path) (data : list byte) : tree :=
  match t !! f with
  | Some (File old) => <[f := File (old ++ data)%list]> t
  | _ => <[f := File data]> t
  end.

(** Successive writes on one handle. *)
Definition write_all (t : tree) (f : path) (chunks : list (list byte)) : tree :=
  fold_left (fun t data => write t f data) chunks t.

(** [p / name] for a relative [name]: its non-empty components other
    than [.] are appended. *)
Definition div (p : path) (name : string) : path :=
  (p ++ List.filter (fun c => negb (bool_decide (c = "" \/ c = ".")))
                    (PyStr.split "/" name))%list.

End Fs.

(** ** The command object and its environment *)

(** What [requests.get(url, stream=True)] returns, as far as
    [download_url] looks at it. *)
Record response : Type := Response {
  status_code : Z;
  (** [response.headers.get('content-length')] *)
  content_length : option string;
  (** [response.content]: the whole body, or the exception that reading
      it raises. *)
  content : string + list byte;
  (** [response.iter_content(chunk_size=n)]: the chunks it yields and,
      when the stream breaks, the exception that ends it. *)
  iter_content : Z -> list (list byte) * option string
}.

(** The state a command runs in: the attributes [parse_config] assigns,
    the file system, the URLs requested so far, and what was printed. *)
Record state : Type := State {
  global_config : option instance;
  apps : gmap string instance;
  fs : gmap (list string) Fs.node;
  requested : list string;
  stdout : list string
}.

(** Stateful computations that return or raise. *)
Definition M (A : Type) : Type := state -> state * result A.

Definition ret {A} (a : A) : M A := fun s => (s, inr a).

Definition raise {A} (e : exn) : M A := fun s => (s, inl e).

Definition bind {A B} (c : M A) (k : A -> M B) : M B :=
  fun s => match c s with
           | (s', inr a) => k a s'
           | (s', inl e) => (s', inl e)
           end.

(** [try: c  except ...: handler] *)
Definition try_except {A} (c : M A) (handler : exn -> M A) : M A :=
  fun s => match c s with
           | (s', inr a) => (s', inr a)
           | (s', inl e) => handler e s'
           end.

Definition lift {A} (r : result A) : M A := fun s => (s, r).

Notation "'let!' x ':=' c 'in' k" := (bind c (fun x => k))
  (at level 10, x pattern, c at level 100, k at level 200).

Notation "c ';;' k" := (bind c (fun _ => k))
  (at level 100, k at level 200, right associativity).

Definition CR : string := String "013"%char EmptyString.
Definition LF : string := String "010"%char EmptyString.

(** [print(text, end=end)] *)
Definition print (text end_ : string) : M unit :=
  fun s => (State (global_config s) (apps s) (fs s) (requested s)
                  (stdout s ++ [(text ++ end_)%string])%list, inr tt).

(** The state with another file system, and with one more request. *)
Definition with_fs (s : state) (t : gmap (list string) Fs.node) : state :=
  State (global_config s) (apps s) t (requested s) (stdout s).

Definition with_request (s : state) (url : string) : state :=
  State (global_config s) (apps s) (fs s) (requested s ++ [url])%list (stdout s).

Definition with_output (s : state) (text : string) : state :=
  State (global_config s) (apps s) (fs s) (requested s) (stdout s ++ [text])%list.

Definition set_fs (t : gmap (list string) Fs.node) : M unit :=
  fun s => (State (global_config s) (apps s) t (requested s) (stdout s), inr tt).

Definition mkdir (p : Fs.path) : M unit :=
  fun s => match Fs.mkdir (fs s) p with
           | inr t => set_fs t s
           | inl e => (s, inl e)
           end.

Definition path_exists (p : Fs.path) : M bool :=
  fun s => (s, inr (Fs.exists_ (fs s) p)).

Definition open_read (p : Fs.path) : M (list byte) :=
  fun s => (s, Fs.open_read (fs s) p).

Definition open_wb (p : Fs.path) : M Fs.path :=
  fun s => match Fs.open_wb (fs s) p with
           | inr (t, f) => (State (global_config s) (apps s) t (requested s) (stdout s), inr f)
           | inl e => (s, inl e)
           end.

Definition write (f : Fs.path) (data : list byte) : M unit :=
  fun s => set_fs (Fs.write (fs s) f data) s.

Definition set_global_config (obj : instance) : M unit :=
  fun s => (State (Some obj) (apps s) (fs s) (requested s) (stdout s), inr tt).

Definition set_app (app_name : string) (obj : instance) : M unit :=
  fun s => (State (global_config s) (<[app_name := obj]> (apps s)) (fs s)
                  (requested s) (stdout s), inr tt).

Section BaseCommand.

Variable set_iter : gset string -> list string.

(** [urllib.parse.urlparse(url).path], or the exception [urlparse]
    raises. *)
Variable urlparse_path : string -> result string.

(** The builtin [int] on a header value; [None] when it raises
    [ValueError]. *)
Variable int_of_str : string -> option Z.

(** [requests.get]: the response to the [n]-th request of the run, or
    the name of the exception the library raises. *)
Variable requests_get : nat -> string -> string + response.

(** [briefcase.config.parse_config(config_file, platform, output_format)]:
    the global options and the options of each app, in the order of
    the file. *)
Variable config_parse :
  list byte -> string -> string ->
  result (gmap string value * list (string * gmap string value)).

(** The attributes the methods read. *)
Variable platform output_format : string.
Variable GLOBAL_CONFIG_CLASS APP_CONFIG_CLASS : klass.

(** *** [parse_config] *)

(** The loop over [app_configs.items()]. *)
Fixpoint create_app_configs (app_configs : list (string * gmap string value)) : M unit :=
  match app_configs with
  | [] => ret tt
  | (app_name, app_config) :: rest =>
      let! obj := lift (create_config set_iter APP_CONFIG_CLASS app_config
                          ("Configuration for " ++ PyStr.quote app_name)) in
      set_app app_name obj ;;
      create_app_configs rest
  end.

Definition parse_config (filename : Fs.path) : M unit :=
  try_except
    (let! config_file := open_read filename in
     let! (global, app_configs) := lift (config_parse config_file platform output_format) in
     let! obj := lift (create_config set_iter GLOBAL_CONFIG_CLASS global
                         "Global configuration") in
     set_global_config obj ;;
     create_app_configs app_configs)
    (fun e => if is_FileNotFoundError e
              then raise (BriefcaseConfigError "configuration file not found")
              else raise e).

(** *** [download_url] *)

(** [urlparse(url).path.split('/')[-1]] *)
Definition cache_name_of (url : string) : result string :=
  match urlparse_path url with
  | inl e => inl e
  | inr p => inr (PyStr.last (PyStr.split "/" p))
  end.

Definition get (url : string) : M response :=
  fun s =>
    let s' := State (global_config s) (apps s) (fs s)
                    (requested s ++ [url])%list (stdout s) in
    match requests_get (length (requested s)) url with
    | inr r => (s', inr r)
    | inl name => (s', inl (ExternalError name))
    end.

Definition len (data : list byte) : Z := Z.of_nat (length data).

(** The text of one progress report. *)
Definition progress_line (done : Z) : string :=
  CR ++ PyStr.mul "█" done ++ PyStr.mul "." (50 - done) ++ " "
     ++ pretty (2 * done) ++ "%".

(** The loop over the chunks [iter_content] yields. *)
Fixpoint write_chunks (f : Fs.path) (total downloaded : Z)
    (chunks : list (list byte)) : M unit :=
  match chunks with
  | [] => ret tt
  | data :: rest =>
      let downloaded := downloaded + len data in
      write f data ;;
      let! done := lift (PyNum.int_truediv (50 * downloaded) total) in
      print (progress_line done) "" ;;
      write_chunks f total downloaded rest
  end.

(** The values [downloaded] takes, one per chunk. *)
Fixpoint running_totals (downloaded : Z) (chunks : list (list byte)) : list Z :=
  match chunks with
  | [] => []
  | data :: rest =>
      (downloaded + len data) :: running_totals (downloaded + len data) rest
  end.

(** The body of [with open(filename, 'wb') as f]. *)
Definition save (f : Fs.path) (r : response) : M unit :=
  match content_length r with
  | None =>
      match content r with
      | inr body => write f body
      | inl name => raise (ExternalError name)
      end
  | Some total =>
      match int_of_str total with
      | None => raise (ValueError "invalid literal for int()")
      | Some total =>
          let (chunks, broken) := iter_content r (1024 * 1024) in
          write_chunks f total 0 chunks ;;
          match broken with
          | Some name => raise (ExternalError name)
          | None => ret tt
          end
      end
  end.

Definition download_url (url : string) (download_path : Fs.path) : M Fs.path :=
  let! cache_name := lift (cache_name_of url) in
  mkdir download_path ;;
  let filename := Fs.div download_path cache_name in
  let! cached := path_exists filename in
  if negb cached then
    let! r := get url in
    if status_code r =? 404 then raise (MissingNetworkResourceError url)
    else if negb (status_code r =? 200)
    then raise (BadNetworkResourceError url (status_code r))
    else
      let! f := open_wb filename in
      save f r ;;
      print "" LF ;;
      ret filename
  else
    print (cache_name ++ " already downloaded") LF ;;
    ret filename.

End BaseCommand.

(** ** A concrete environment

    Simple stand-ins for the collaborators, for running the methods on
    examples. *)

Module Demo.

(** The part of [s] before the first [c], and the part from it on. *)
Fixpoint break (c : ascii) (s : string) : string * string :=
  match s with
  | EmptyString => (EmptyString, EmptyString)
  | String d rest =>
      if Ascii.eqb d c then (EmptyString, s)
      else let (l, r) := break c rest in (String d l, r)
  end.

(** The path of a URL of the shape [scheme://host/path;params?query#fragment]. *)
Definition urlparse_path (url : string) : result string :=
  let after_scheme :=
    match snd (break ":" url) with
    | String _ (String "/" (String "/" rest)) => rest
    | _ => url
    end in
  let no_fragment := fst (break "#" after_scheme) in
  let no_query := fst (break "?" no_fragment) in
  let from_slash := snd (break "/" no_query) in
  let segments := PyStr.split "/" from_slash in
  inr (PyStr.join "/" (removelast segments
                       ++ [fst (break ";" (PyStr.last segments))])%list).

Definition digit (c : ascii) : option Z :=
  let n := Z.of_nat (nat_of_ascii c) in
  if (48 <=? n) && (n <=? 57) then Some (n - 48) else None.

Fixpoint digits (acc : Z) (s : string) : option Z :=
  match s with
  | EmptyString => Some acc
  | String c rest =>
      match digit c with
      | Some d => digits (10 * acc + d) rest
      | None => None
      end
  end.

(** [int] on a plain decimal numeral. *)
Definition int_of_str (s : string) : option Z :=
  match s with
  | EmptyString => None
  | _ => digits 0 s
  end.

(** Chunks of at most [n] bytes. *)
Fixpoint chunked (fuel : nat) (n : nat) (body : list byte) : list (list byte) :=
  match fuel, body with
  | _, [] => []
  | O, _ => [body]
  | S fuel, _ => take n body :: chunked fuel n (drop n body)
  end.

Definition ok_response (advertised : option string) (body : list byte) : response :=
  Response 200 advertised (inr body)
           (fun n => (chunked (length body) (Z.to_nat n) body, None)).

Definition status_response (code : Z) : response :=
  Response code None (inr []) (fun _ => ([], None)).

(** A server with a few resources and a broken endpoint. *)
Definition requests_get (n : nat) (url : string) : string + response :=
  if bool_decide (url = "https://example.com/support/python.tar.gz")
  then inr (ok_response (Some "5") [x01; x02; x03; x04; x05])
  else if bool_decide (url = "https://example.com/support/plain.txt?v=1#top")
  then inr (ok_response None [x68; x69])
  else if bool_decide (url = "https://example.com/support/short.bin")
  then inr (Response 200 (Some "1") (inr [x01; x02])
                     (fun _ => ([[x01; x02]], None)))
  else if bool_decide (url = "https://example.com/support/steps.bin")
  then inr (Response 200 (Some "4") (inr [x01; x02; x03; x04])
                     (fun _ => ([[x01]; [x02; x03]; [x04]], None)))
  else if bool_decide (url = "https://example.com/broken")
  then inr (status_response 500)
  else inr (status_response 404).

Definition config_parse (config_file : list byte) (platform output_format : string)
  : result (gmap string value * list (string * gmap string value)) :=
  match config_file with
  | [] => inl (BriefcaseConfigError "Invalid pyproject.toml")
  | _ => inr ({[ "version" := VStr "1.2.3" ]},
              [("first", {[ "name" := VStr "first"; "version" := VStr "1.2.3" ]})])
  end.

(** A class in the style of the configuration classes: required
    options are parameters, any other option goes to [**kwargs], and
    every option becomes an attribute. *)
Definition storing (required : list string) : klass :=
  Klass (Param "self" POSITIONAL_OR_KEYWORD None
           :: map (fun n => Param n POSITIONAL_OR_KEYWORD None) required
           ++ [Param "kwargs" VAR_KEYWORD None])%list
        (fun b => inr (named b ∪ var_keyword b)).

Definition GlobalConfig : klass := storing ["version"].
Definition AppConfig : klass := storing ["name"; "version"].

Definition cache : Fs.path := ["home"; "user"; ".briefcase"; "support"].

(** The directories [mkdir] creates for [cache] on an empty file system. *)
Definition cache_tree : gmap (list string) Fs.node :=
  {[ ["home"] := Fs.Dir;
     ["home"; "user"] := Fs.Dir;
     ["home"; "user"; ".briefcase"] := Fs.Dir;
     ["home"; "user"; ".briefcase"; "support"] := Fs.Dir ]}.

Definition empty_state : state := State None ∅ ∅ [] [].

Definition download_url :=
  download_url urlparse_path int_of_str requests_get.

Definition parse_config :=
  parse_config elements config_parse "macOS" "app" GlobalConfig AppConfig.

End Demo.

(** ** The specification's reading of the diagnostic *)

Module Spec.

(** The required parameters as the specification lists them: in
    declaration order, without the receiver and without the catch-all
    keyword parameter, and absent from the keys of [config]. *)
Definition missing_in_declaration_order (k : klass) (config : gmap string value)
  : list string :=
  map name
      (List.filter
         (fun p => bool_decide (default p = None)
                   && negb (bool_decide (kind p = VAR_KEYWORD))
                   && bool_decide (config !! name p = None))
         (tail (init_params k))).

(** The message the specification expects. *)
Definition incomplete_message (k : klass) (config : gmap string value) (msg : string)
  : string :=
  msg ++ " is incomplete (missing "
      ++ PyStr.join ", " (map PyStr.quote (missing_in_declaration_order k config))
      ++ ")".

(** The cells of a progress bar for [done] fiftieths. *)
Definition bar_cells (done : Z) : list string :=
  (replicate (Z.to_nat done) "█" ++ replicate (Z.to_nat (50 - done)) ".")%list.

End Spec.

(** More classes and an iteration order for the examples. *)
Module Examples.

(** A set iterated from its last member to its first. *)
Definition reversed_iter (s : gset string) : list string := rev (elements s).

(** A constructor whose catch-all parameter is not called [kwargs]. *)
Definition Options : klass :=
  Klass [Param "self" POSITIONAL_OR_KEYWORD None;
         Param "name" POSITIONAL_OR_KEYWORD None;
         Param "options" VAR_KEYWORD None]
        (fun b => inr (named b ∪ var_keyword b)).

(** A constructor without a catch-all parameter. *)
Definition Strict : klass :=
  Klass [Param "self" POSITIONAL_OR_KEYWORD None;
         Param "version" POSITIONAL_OR_KEYWORD None]
        (fun b => inr (named b)).

(** A constructor that checks the type of [version] and one that
    checks its content. *)
Definition Typed : klass :=
  Klass [Param "self" POSITIONAL_OR_KEYWORD None;
         Param "version" POSITIONAL_OR_KEYWORD None;
         Param "kwargs" VAR_KEYWORD None]
        (fun b => match named b !! "version" with
                  | Some (VStr _) => inr (named b ∪ var_keyword b)
                  | _ => inl (TypeError "version must be a string")
                  end).

Definition Checked : klass :=
  Klass [Param "self" POSITIONAL_OR_KEYWORD None;
         Param "version" POSITIONAL_OR_KEYWORD None;
         Param "kwargs" VAR_KEYWORD None]
        (fun b => match named b !! "version" with
                  | Some (VStr "") => inl (ValueError "version is empty")
                  | _ => inr (named b ∪ var_keyword b)
                  end).

End Examples.

(** ** Further methods and examples *)

(** [self.apps[app_name] = obj] for each created object, in order. *)
Definition store_apps (apps : gmap string instance)
    (created : list (string * instance)) : gmap string instance :=
fold_left (fun m (no : string * instance) => <[no.1 := no.2]> m) created apps.

(** [BaseCommand.python_version_tag], for the [major] and [minor] of
    [sys.version_info]. *)
Definition python_version_tag (major minor : Z) : string :=
pretty major ++ "." ++ pretty minor.

(** A small environment for further examples; its names are short,
    which keeps the file system light to compute with. Most answers of
    its server go wrong after the status line. *)
Module Faulty.

Definition cache : Fs.path := ["c"].

Definition cache_tree : gmap (list string) Fs.node := {[ ["c"] := Fs.Dir ]}.

(** A cache that holds one file already. *)
Definition stocked : state :=
State None ∅ {[ ["c"] := Fs.Dir; ["c"; "f"] := Fs.File [x01] ]} [] [].

(** A body of four bytes that arrives in three chunks. *)
Definition steps : response :=
Response 200 (Some "4") (inr [x01; x02; x03; x04])
         (fun _ => ([[x01]; [x02; x03]; [x04]], None)).

(** The stream breaks after two chunks of a body of five bytes. *)
Definition broken : response :=
Response 200 (Some "5") (inl "ChunkedEncodingError")
         (fun _ => ([[x01; x02]; [x03]], Some "ChunkedEncodingError")).

(** A content-length of zero with a body all the same, and with none. *)
Definition zero_with_body : response :=
Response 200 (Some "0") (inr [x01; x02]) (fun _ => ([[x01]; [x02]], None)).

Definition zero_empty : response :=
Response 200 (Some "0") (inr []) (fun _ => ([], None)).

(** A content-length that is no number. *)
Definition not_a_number : response :=
Response 200 (Some "five") (inr [x01]) (fun _ => ([[x01]], None)).

Definition requests_get (n : nat) (url : string) : string + response :=
if bool_decide (url = "http://h/s") then inr steps
else if bool_decide (url = "http://h/b") then inr broken
else if bool_decide (url = "http://h/z") then inr zero_with_body
else if bool_decide (url = "http://h/e") then inr zero_empty
else if bool_decide (url = "http://h/o") then inr not_a_number
else inl "ConnectionError".

(** A project [p] with a configuration file [t], a directory [s] and
    nothing else. *)
Definition project : state :=
State None ∅ {[ ["p"] := Fs.Dir;
                ["p"; "t"] := Fs.File [x5b];
                ["p"; "s"] := Fs.Dir ]} [] [].

(** A parser that finds three apps, the second without a version. *)
Definition config_parse (config_file : list byte) (platform output_format : string)
  : result (gmap string value * list (string * gmap string value)) :=
inr ({[ "version" := VStr "1.2.3" ]},
     [("first", {[ "name" := VStr "first"; "version" := VStr "1.2.3" ]});
      ("second", {[ "name" := VStr "second" ]});
      ("third", {[ "name" := VStr "third"; "version" := VStr "0.1" ]})]).


End Faulty.

(** * Properties of [create_config] *)

Section CreateConfigFacts.

Variable set_iter : gset string -> list string.
Hypothesis set_iter_enumerates : forall s, set_iter s ≡ₚ elements s.

Lemma elem_of_set_iter (x : string) (s : gset string) : x ∈ set_iter s <-> x ∈ s.
Proof. rewrite (set_iter_enumerates s). apply elem_of_elements. Qed.

Lemma NoDup_set_iter (s : gset string) : NoDup (set_iter s).
Proof. rewrite (set_iter_enumerates s). apply NoDup_elements. Qed.

Lemma elem_of_required_args (k : klass) (x : string) :
  x ∈ required_args k <->
  (exists p, p ∈ init_params k /\ name p = x /\ default p = None)
  /\ x <> "self" /\ x <> "kwargs".
Proof.
  unfold required_args. rewrite elem_of_list_to_set, list_elem_of_In, in_map_iff.
  split.
  - intros (p & <- & Hp). apply filter_In in Hp as [Hin Hp].
    apply andb_prop in Hp as [Hd Hn].
    apply bool_decide_eq_true in Hd. apply negb_true_iff, bool_decide_eq_false in Hn.
    split; [exists p; by rewrite list_elem_of_In|].
    split; intros E; apply Hn; rewrite E, list_elem_of_In; simpl; auto.
  - intros ((p & Hin & <- & Hd) & Hs & Hk). exists p. split; [done|].
    apply filter_In. split; [by apply list_elem_of_In|].
    apply andb_true_intro. split; [by apply bool_decide_eq_true|].
    apply negb_true_iff, bool_decide_eq_false.
    rewrite list_elem_of_In. simpl. intros [E | [E | []]]; congruence.
Qed.

Lemma create_config_TypeError (k : klass) (config : gmap string value)
    (msg detail : string) :
  Call.construct k config = inl (TypeError detail) ->
  create_config set_iter k config msg
  = inl (BriefcaseConfigError
           (incomplete_message msg (missing set_iter k config))).
Proof. unfold create_config. by intros ->. Qed.

End CreateConfigFacts.

(** C1 (as amended). When the construction raises [TypeError],
    [create_config] raises [BriefcaseConfigError] with the message
    ["<msg> is incomplete (missing <names>)"], where the names are
    single-quoted and separated by a comma and a space, and are, each
    once and in the iteration order of the set, exactly the parameters
    of [__init__] without a default whose name is neither [self] nor
    [kwargs] and which is not a key of the configuration. *)
Theorem create_config_reports_missing
    (set_iter : gset string -> list string)
    (set_iter_enumerates : forall s, set_iter s ≡ₚ elements s)
    (k : klass) (config : gmap string value) (msg detail : string) :
  Call.construct k config = inl (TypeError detail) ->
  exists names : list string,
    create_config set_iter k config msg
    = inl (BriefcaseConfigError
             (msg ++ " is incomplete (missing "
                  ++ PyStr.join ", " (map PyStr.quote names) ++ ")"))
    /\ NoDup names
    /\ forall x, x ∈ names <->
         (exists p, p ∈ init_params k /\ name p = x /\ default p = None)
         /\ x <> "self" /\ x <> "kwargs" /\ config !! x = None.
Proof.
  intros Hfail. exists (set_iter (missing_args k config)).
  split; [|split].
  - by apply create_config_TypeError with detail.
  - by apply NoDup_set_iter.
  - intros x. rewrite elem_of_set_iter by done.
    unfold missing_args. rewrite elem_of_difference, elem_of_required_args.
    rewrite not_elem_of_dom. tauto.
Qed.

Lemma create_config_reports_missing_witness :
  Call.construct Demo.AppConfig {[ "version" := VStr "1.2.3" ]}
  = inl (TypeError "__init__() missing 1 required argument: 'name'")
  /\ exists names : list string,
       create_config elements Demo.AppConfig {[ "version" := VStr "1.2.3" ]}
                     "Configuration for 'first'"
       = inl (BriefcaseConfigError
                ("Configuration for 'first'" ++ " is incomplete (missing "
                   ++ PyStr.join ", " (map PyStr.quote names) ++ ")"))
       /\ NoDup names
       /\ forall x, x ∈ names <->
            (exists p, p ∈ init_params Demo.AppConfig /\ name p = x /\ default p = None)
            /\ x <> "self" /\ x <> "kwargs"
            /\ ({[ "version" := VStr "1.2.3" ]} : gmap string value) !! x = None.
Proof.
  split; [vm_compute; reflexivity|].
  apply (create_config_reports_missing elements (fun s => reflexivity _)
           Demo.AppConfig {[ "version" := VStr "1.2.3" ]}
           "Configuration for 'first'"
           "__init__() missing 1 required argument: 'name'").
  vm_compute; reflexivity.
Defined.

(** C1 (as stated) fails: a set need not be iterated in declaration
    order. With an iteration that yields [version] before [name], the
    message for a configuration lacking both is not the one that lists
    them as declared. *)
Lemma create_config_declaration_order_counterexample :
  (forall s, Examples.reversed_iter s ≡ₚ elements s)
  /\ Call.construct Demo.AppConfig ∅
     = inl (TypeError "__init__() missing 1 required argument: 'name'")
  /\ Spec.incomplete_message Demo.AppConfig ∅ "Configuration for 'first'"
     = "Configuration for 'first' is incomplete (missing 'name', 'version')"
  /\ create_config Examples.reversed_iter Demo.AppConfig ∅ "Configuration for 'first'"
     = inl (BriefcaseConfigError
              "Configuration for 'first' is incomplete (missing 'version', 'name')")
  /\ create_config Examples.reversed_iter Demo.AppConfig ∅ "Configuration for 'first'"
     <> inl (BriefcaseConfigError
               (Spec.incomplete_message Demo.AppConfig ∅ "Configuration for 'first'")).
Proof.
  split; [intros s; symmetry; apply Permutation_rev|].
  repeat split; try (vm_compute; reflexivity).
  vm_compute. discriminate.
Qed.

(** The exclusion is by name: a catch-all parameter that is not called
    [kwargs] is reported as missing, whatever the iteration order. *)
Lemma create_config_lists_renamed_catch_all
    (set_iter : gset string -> list string)
    (set_iter_enumerates : forall s, set_iter s ≡ₚ elements s) :
  exists names,
    create_config set_iter Examples.Options ∅ "Global configuration"
    = inl (BriefcaseConfigError
             ("Global configuration is incomplete (missing "
                ++ PyStr.join ", " (map PyStr.quote names) ++ ")"))
    /\ "options" ∈ names.
Proof.
  exists (set_iter (missing_args Examples.Options ∅)). split.
  - by apply create_config_TypeError
      with "__init__() missing 1 required argument: 'name'".
  - apply elem_of_set_iter; [done|].
    unfold missing_args. apply elem_of_difference. split; [|set_solver].
    apply elem_of_required_args. split; [|done].
    exists (Param "options" VAR_KEYWORD None). split; [|done].
    unfold Examples.Options; simpl. rewrite list_elem_of_In; simpl; auto.
Qed.

(** ** Binding of keyword arguments *)

Section Binding.

Variables (receiver : option param) (ps : list param).

Lemma keyword_target_of_param (p : param) :
  p ∈ ps -> Call.takes_keyword p = true ->
  is_Some (Call.keyword_target ps (name p)).
Proof.
  intros Hin Hkw. unfold Call.keyword_target.
  destruct (List.find _ ps) as [q|] eqn:Hfind; [by eexists|].
  apply list_elem_of_In in Hin.
  pose proof (find_none _ _ Hfind p Hin) as Hnone. simpl in Hnone.
  rewrite Hkw, bool_decide_eq_true_2 in Hnone by done. discriminate.
Qed.

Lemma bind_keyword_list (l : list (string * value)) (b0 : bound_args) :
  NoDup (l.*1) ->
  (forall kv, kv ∈ l -> Call.accepts receiver ps kv.1 = true) ->
  exists b,
    fold_left (Call.bind_keyword receiver ps) l (inr b0) = inr b
    /\ (forall key,
          named b !! key
          = match Call.keyword_target ps key,
                  (list_to_map l : gmap string value) !! key with
            | Some _, Some v => Some v
            | _, _ => named b0 !! key
            end)
    /\ (forall key,
          var_keyword b !! key
          = match Call.keyword_target ps key,
                  (list_to_map l : gmap string value) !! key with
            | None, Some v => Some v
            | _, _ => var_keyword b0 !! key
            end).
Proof.
  revert b0. induction l as [|[k v] l IH]; intros b0 Hnodup Hacc.
  - exists b0. split; [done|].
    split; intros key; rewrite list_to_map_nil, lookup_empty;
      by destruct (Call.keyword_target ps key).
  - rewrite fmap_cons in Hnodup. apply NoDup_cons in Hnodup as [Hk Hnodup].
    assert (Hfresh : (list_to_map l : gmap string value) !! k = None)
      by by apply not_elem_of_list_to_map_1.
    pose proof (Hacc (k, v) ltac:(left)) as Hkacc.
    assert (Hrest : forall kv, kv ∈ l -> Call.accepts receiver ps kv.1 = true)
      by (intros kv Hkv; apply Hacc; by right).
    unfold Call.accepts in Hkacc. simpl in Hkacc.
    simpl fold_left.
    destruct (Call.keyword_target ps k) as [q|] eqn:Htarget.
    + destruct (IH (BoundArgs (<[k := v]> (named b0)) (var_keyword b0)) Hnodup Hrest)
        as (b & Hfold & Hnamed & Hvar).
      exists b. split; [exact Hfold|]. split; intros key.
      * rewrite Hnamed. simpl. destruct (decide (key = k)) as [->|Hne].
        -- by rewrite Htarget, Hfresh, !lookup_insert_eq.
        -- by rewrite !lookup_insert_ne.
      * rewrite Hvar. simpl. destruct (decide (key = k)) as [->|Hne].
        -- by rewrite Htarget.
        -- by rewrite lookup_insert_ne.
    + apply andb_prop in Hkacc as [Hrecv Hvk].
      apply negb_true_iff in Hrecv. rewrite Hrecv, Hvk.
      destruct (IH (BoundArgs (named b0) (<[k := v]> (var_keyword b0))) Hnodup Hrest)
        as (b & Hfold & Hnamed & Hvar).
      exists b. split; [exact Hfold|]. split; intros key.
      * rewrite Hnamed. simpl. destruct (decide (key = k)) as [->|Hne].
        -- by rewrite Htarget.
        -- by rewrite lookup_insert_ne.
      * rewrite Hvar. simpl. destruct (decide (key = k)) as [->|Hne].
        -- by rewrite Htarget, Hfresh, !lookup_insert_eq.
        -- by rewrite !lookup_insert_ne.
Qed.

(** When every key is accepted, the keywords are distributed between
    the named parameters and the catch-all. *)
Lemma bind_keywords_accepted (config : gmap string value) :
  (forall key, is_Some (config !! key) -> Call.accepts receiver ps key = true) ->
  exists b,
    Call.bind_keywords receiver ps config = inr b
    /\ (forall key,
          named b !! key
          = match Call.keyword_target ps key with
            | Some _ => config !! key
            | None => None
            end)
    /\ (forall key,
          var_keyword b !! key
          = match Call.keyword_target ps key with
            | Some _ => None
            | None => config !! key
            end).
Proof.
  intros Hacc.
  destruct (bind_keyword_list (map_to_list config) (BoundArgs ∅ ∅))
    as (b & Hfold & Hnamed & Hvar).
  - apply NoDup_fst_map_to_list.
  - intros [k v] Hkv. apply Hacc. apply elem_of_map_to_list in Hkv. by eexists.
  - exists b. split; [exact Hfold|].
    split; intros key; [rewrite Hnamed | rewrite Hvar];
      rewrite list_to_map_to_list; simpl; rewrite lookup_empty;
      destruct (Call.keyword_target ps key), (config !! key); done.
Qed.

(** Defaults fill what the keywords left, when nothing required is
    left. *)
Lemma fill_defaults_filled (qs : list param) (b : bound_args) :
  (forall p, p ∈ qs -> Call.is_variadic p = false -> default p = None ->
             is_Some (named b !! name p)) ->
  exists b',
    Call.fill_defaults qs b = inr b'
    /\ var_keyword b' = var_keyword b
    /\ forall key v, named b !! key = Some v -> named b' !! key = Some v.
Proof.
  revert b. induction qs as [|p qs IH]; intros b Hreq.
  - by exists b.
  - assert (Hrest : forall b1,
               (forall key, is_Some (named b !! key) -> is_Some (named b1 !! key)) ->
               forall q, q ∈ qs -> Call.is_variadic q = false -> default q = None ->
                         is_Some (named b1 !! name q)).
    { intros b1 Hmono q Hq Hv Hd. apply Hmono, Hreq; [by right|done..]. }
    simpl. destruct (Call.is_variadic p) eqn:Hvar; [by apply IH, Hrest|].
    destruct (named b !! name p) as [v|] eqn:Hlook; [by apply IH, Hrest|].
    destruct (default p) as [d|] eqn:Hdef.
    + destruct (IH (BoundArgs (<[name p := d]> (named b)) (var_keyword b)))
        as (b' & Hfill & Hvk & Hnamed).
      { apply Hrest. intros key Hkey. simpl.
        destruct (decide (key = name p)) as [->|Hne];
          [rewrite lookup_insert_eq; by eexists | by rewrite lookup_insert_ne]. }
      exists b'. split; [exact Hfill|]. split; [exact Hvk|].
      intros key v Hkey. apply Hnamed. simpl.
      rewrite lookup_insert_ne; [done|]. intros <-. congruence.
    + destruct (Hreq p ltac:(left) Hvar Hdef) as [v Hv]. congruence.
Qed.

End Binding.

Lemma keys_accepted_spec (receiver : option param) (ps : list param)
    (config : gmap string value) :
  Call.keys_accepted receiver ps config = true ->
  forall key, is_Some (config !! key) -> Call.accepts receiver ps key = true.
Proof.
  unfold Call.keys_accepted. rewrite forallb_forall. intros Hall key [v Hv].
  apply (Hall (key, v)). by apply list_elem_of_In, elem_of_map_to_list.
Qed.

Lemma required_given_spec (ps : list param) (config : gmap string value) :
  Call.required_given ps config = true ->
  forall p, p ∈ ps -> Call.is_variadic p = false -> default p = None ->
            Call.takes_keyword p = true /\ is_Some (config !! name p).
Proof.
  unfold Call.required_given. rewrite forallb_forall. intros Hall p Hp Hvar Hdef.
  apply list_elem_of_In in Hp. specialize (Hall p Hp).
  rewrite Hvar, Hdef in Hall. simpl in Hall.
  apply andb_prop in Hall as [Hkw Hin].
  by apply bool_decide_eq_true in Hin.
Qed.

(** Binding succeeds when the configuration gives every required
    parameter and holds only keys the call accepts. *)
Lemma bind_complete (ps : list param) (config : gmap string value)
    (receiver : option param) (rest : list param) :
  Call.bind_receiver ps = inr (receiver, rest) ->
  Call.required_given rest config = true ->
  Call.keys_accepted receiver rest config = true ->
  exists b,
    Call.bind ps config = inr b
    /\ (forall p v, p ∈ rest -> Call.takes_keyword p = true ->
                    config !! name p = Some v -> named b !! name p = Some v)
    /\ (forall key v, config !! key = Some v ->
                      Call.keyword_target rest key = None ->
                      var_keyword b !! key = Some v).
Proof.
  intros Hrecv Hreq Hkeys. unfold Call.bind. rewrite Hrecv.
  destruct (bind_keywords_accepted receiver rest config (keys_accepted_spec _ _ _ Hkeys))
    as (b0 & -> & Hnamed & Hvar).
  assert (Htarget : forall p, p ∈ rest -> Call.takes_keyword p = true ->
                              named b0 !! name p = config !! name p).
  { intros p Hp Hkw. rewrite Hnamed.
    by destruct (keyword_target_of_param rest p Hp Hkw) as [q ->]. }
  destruct (fill_defaults_filled rest b0) as (b & -> & Hvk & Hkeep).
  { intros p Hp Hv Hd.
    destruct (required_given_spec rest config Hreq p Hp Hv Hd) as [Hkw Hin].
    by rewrite Htarget. }
  exists b. split; [done|]. split.
  - intros p v Hp Hkw Hv. apply Hkeep. by rewrite Htarget.
  - intros key v Hv Hnone. by rewrite Hvk, Hvar, Hnone.
Qed.

(** C2 (as amended). When the configuration gives every required
    parameter of the constructor and each of its keys is accepted (it
    names a keyword parameter other than the receiver, or the
    constructor has a catch-all), the arguments bind: every declared
    parameter present in the configuration receives the configuration's
    entry, every other key goes to the catch-all, and [create_config]
    returns the object the constructor body builds from them. *)
Theorem create_config_complete
    (set_iter : gset string -> list string)
    (k : klass) (config : gmap string value) (msg : string)
    (receiver : option param) (rest : list param) :
  Call.bind_receiver (init_params k) = inr (receiver, rest) ->
  Call.required_given rest config = true ->
  Call.keys_accepted receiver rest config = true ->
  exists b,
    Call.bind (init_params k) config = inr b
    /\ (forall p v, p ∈ rest -> Call.takes_keyword p = true ->
                    config !! name p = Some v -> named b !! name p = Some v)
    /\ (forall key v, config !! key = Some v ->
                      Call.keyword_target rest key = None ->
                      var_keyword b !! key = Some v)
    /\ (forall obj, init_body k b = inr obj ->
                    create_config set_iter k config msg = inr obj).
Proof.
  intros Hrecv Hreq Hkeys.
  destruct (bind_complete _ _ _ _ Hrecv Hreq Hkeys) as (b & Hbind & Hnamed & Hvar).
  exists b. repeat split; try done.
  intros obj Hbody. unfold create_config, Call.construct. by rewrite Hbind, Hbody.
Qed.

Lemma create_config_complete_witness :
  let config : gmap string value :=
    {[ "name" := VStr "first"; "version" := VStr "1.2.3"; "icon" := VStr "icon.png" ]} in
  let rest := [Param "name" POSITIONAL_OR_KEYWORD None;
               Param "version" POSITIONAL_OR_KEYWORD None;
               Param "kwargs" VAR_KEYWORD None] in
  exists b,
    Call.bind (init_params Demo.AppConfig) config = inr b
    /\ (forall p v, p ∈ rest -> Call.takes_keyword p = true ->
                    config !! name p = Some v -> named b !! name p = Some v)
    /\ (forall key v, config !! key = Some v ->
                      Call.keyword_target rest key = None ->
                      var_keyword b !! key = Some v)
    /\ (forall obj, init_body Demo.AppConfig b = inr obj ->
                    create_config elements Demo.AppConfig config
                                  "Configuration for 'first'" = inr obj).
Proof.
  intros config rest.
  apply (create_config_complete elements Demo.AppConfig config
           "Configuration for 'first'"
           (Some (Param "self" POSITIONAL_OR_KEYWORD None)) rest);
    vm_compute; reflexivity.
Defined.

(** What the call of the witness returns: every option is an attribute. *)
Example create_config_first_app :
  create_config elements Demo.AppConfig
    {[ "name" := VStr "first"; "version" := VStr "1.2.3"; "icon" := VStr "icon.png" ]}
    "Configuration for 'first'"
  = inr {[ "name" := VStr "first"; "version" := VStr "1.2.3"; "icon" := VStr "icon.png" ]}.
Proof. vm_compute. reflexivity. Qed.

(** C2 (as stated) fails: a constructor without a catch-all rejects a
    configuration that gives its required parameter and one more key;
    the [TypeError] becomes a report that nothing is missing. *)
Lemma create_config_extra_key_counterexample :
  let config : gmap string value :=
    {[ "version" := VStr "1.2.3"; "icon" := VStr "icon.png" ]} in
  Call.required_given (tail (init_params Examples.Strict)) config = true
  /\ create_config elements Examples.Strict config "Global configuration"
     = inl (BriefcaseConfigError "Global configuration is incomplete (missing )")
  /\ forall obj,
       create_config elements Examples.Strict config "Global configuration" <> inr obj.
Proof.
  intros config. split; [vm_compute; reflexivity|].
  assert (H : create_config elements Examples.Strict config "Global configuration"
              = inl (BriefcaseConfigError "Global configuration is incomplete (missing )"))
    by (vm_compute; reflexivity).
  split; [exact H|]. intros obj. rewrite H. discriminate.
Qed.

(** C8 (as amended). A construction failure that is not a [TypeError]
    leaves [create_config] as it was raised. *)
Theorem create_config_propagates
    (set_iter : gset string -> list string)
    (k : klass) (config : gmap string value) (msg : string) (e : exn) :
  Call.construct k config = inl e ->
  is_TypeError e = false ->
  create_config set_iter k config msg = inl e.
Proof.
  intros Hfail Hkind. unfold create_config. rewrite Hfail. by destruct e.
Qed.

Lemma create_config_propagates_witness :
  create_config elements Examples.Checked {[ "version" := VStr "" ]}
                "Global configuration"
  = inl (ValueError "version is empty").
Proof.
  apply (create_config_propagates elements Examples.Checked
           {[ "version" := VStr "" ]} "Global configuration"
           (ValueError "version is empty"));
    vm_compute; reflexivity.
Defined.

(** C8 (as stated) fails: the arguments bind, the constructor body
    rejects the type of a value with [TypeError], and [create_config]
    reports an incomplete configuration with nothing missing. *)
Lemma create_config_body_TypeError_counterexample :
  let config : gmap string value := {[ "version" := VInt 1 ]} in
  let b := BoundArgs {[ "version" := VInt 1 ]} ∅ in
  Call.bind (init_params Examples.Typed) config = inr b
  /\ init_body Examples.Typed b = inl (TypeError "version must be a string")
  /\ create_config elements Examples.Typed config "Global configuration"
     = inl (BriefcaseConfigError "Global configuration is incomplete (missing )")
  /\ create_config elements Examples.Typed config "Global configuration"
     <> Call.construct Examples.Typed config.
Proof.
  intros config b. repeat split; try (vm_compute; reflexivity).
  vm_compute. discriminate.
Qed.

(** * The file system *)

Section FsFacts.

Implicit Types (t : gmap (list string) Fs.node) (cur p q : Fs.path).

Lemma lookup_node_insert_ne t q x n :
  q <> x -> Fs.lookup_node t q = None ->
  Fs.lookup_node (<[q := n]> t) x = Fs.lookup_node t x.
Proof.
  intros Hne _. unfold Fs.lookup_node. destruct x; [done|].
  by rewrite lookup_insert_ne.
Qed.

Lemma lookup_node_None_nonempty t q : Fs.lookup_node t q = None -> q <> [].
Proof. by destruct q. Qed.

Lemma lookup_node_insert_eq t q n :
  q <> [] -> Fs.lookup_node (<[q := n]> t) q = Some n.
Proof. destruct q; [done|]. intros _. simpl. by rewrite lookup_insert_eq. Qed.

Lemma is_dir_insert_fresh t q n x :
  Fs.lookup_node t q = None -> Fs.is_dir t x = true ->
  Fs.is_dir (<[q := n]> t) x = true.
Proof.
  intros Hq Hx. unfold Fs.is_dir in *.
  destruct (decide (q = x)) as [->|Hne]; [by rewrite Hq in Hx|].
  by rewrite lookup_node_insert_ne.
Qed.

Lemma mkdir_from_is_dir t cur p t' x :
  Fs.mkdir_from t cur p = inr t' -> Fs.is_dir t x = true -> Fs.is_dir t' x = true.
Proof.
  revert t cur. induction p as [|c rest IH]; intros t cur Hmk Hx; simpl in Hmk.
  - by inversion Hmk; subst.
  - destruct (Fs.lookup_node t (Fs.step cur c)) as [[|data]|] eqn:Hnode.
    + by eapply IH.
    + discriminate.
    + eapply IH; [exact Hmk|]. by apply is_dir_insert_fresh.
Qed.

Lemma mkdir_from_all_dirs t cur p t' :
  Fs.mkdir_from t cur p = inr t' -> Fs.all_dirs t' cur p = true.
Proof.
  revert t cur. induction p as [|c rest IH]; intros t cur Hmk; simpl in *; [done|].
  destruct (Fs.lookup_node t (Fs.step cur c)) as [[|data]|] eqn:Hnode.
  - apply andb_true_intro. split; [|by eapply IH].
    eapply mkdir_from_is_dir; [exact Hmk|]. unfold Fs.is_dir. by rewrite Hnode.
  - discriminate.
  - apply andb_true_intro. split; [|by eapply IH].
    eapply mkdir_from_is_dir; [exact Hmk|]. unfold Fs.is_dir.
    rewrite lookup_node_insert_eq; [done|]. by eapply lookup_node_None_nonempty.
Qed.

Lemma mkdir_from_fixed t cur p :
  Fs.all_dirs t cur p = true -> Fs.mkdir_from t cur p = inr t.
Proof.
  revert cur. induction p as [|c rest IH]; intros cur Hdirs; simpl in *; [done|].
  apply andb_prop in Hdirs as [Hdir Hdirs]. unfold Fs.is_dir in Hdir.
  destruct (Fs.lookup_node t (Fs.step cur c)) as [[|data]|]; try discriminate.
  by apply IH.
Qed.

(** Creating directories neither creates nor changes a file. *)
Lemma mkdir_from_files t cur p t' q data :
  Fs.mkdir_from t cur p = inr t' ->
  t' !! q = Some (Fs.File data) <-> t !! q = Some (Fs.File data).
Proof.
  revert t cur. induction p as [|c rest IH]; intros t cur Hmk; simpl in Hmk.
  - by inversion Hmk; subst.
  - destruct (Fs.lookup_node t (Fs.step cur c)) as [[|d]|] eqn:Hnode.
    + by eapply IH.
    + discriminate.
    + rewrite (IH _ _ Hmk).
      destruct (decide (Fs.step cur c = q)) as [<-|Hne].
      * rewrite lookup_insert_eq.
        assert (t !! Fs.step cur c = None) as ->.
        { pose proof (lookup_node_None_nonempty _ _ Hnode).
          by destruct (Fs.step cur c). }
        split; intros; discriminate.
      * by rewrite lookup_insert_ne.
Qed.

Lemma resolve_from_app t cur p p2 :
  Fs.is_dir t cur = true -> Fs.all_dirs t cur p = true ->
  Fs.resolve_from t cur (p ++ p2)%list = Fs.resolve_from t (Fs.walk cur p) p2
  /\ Fs.is_dir t (Fs.walk cur p) = true.
Proof.
  revert cur. induction p as [|c rest IH]; intros cur Hcur Hdirs; simpl in *; [done|].
  apply andb_prop in Hdirs as [Hdir Hdirs]. rewrite Hcur. by apply IH.
Qed.

Lemma resolve_from_all_dirs t cur p :
  Fs.is_dir t cur = true -> Fs.all_dirs t cur p = true ->
  Fs.resolve_from t cur p = inr (Fs.walk cur p).
Proof.
  intros Hcur Hdirs.
  destruct (resolve_from_app t cur p [] Hcur Hdirs) as [Happ _].
  by rewrite app_nil_r in Happ.
Qed.

(** After [mkdir], the directory exists. *)
Lemma exists_after_mkdir t p t' :
  Fs.mkdir t p = inr t' -> Fs.exists_ t' p = true.
Proof.
  intros Hmk. apply mkdir_from_all_dirs in Hmk.
  unfold Fs.exists_, Fs.resolve.
  destruct (resolve_from_app t' [] p [] eq_refl Hmk) as [Happ Hdir].
  rewrite app_nil_r in Happ. rewrite Happ. simpl.
  apply bool_decide_eq_true. unfold Fs.is_dir in Hdir.
  destruct (Fs.lookup_node t' (Fs.walk [] p)); [by eexists | discriminate].
Qed.

Lemma mkdir_idempotent t p t' :
  Fs.mkdir t p = inr t' -> Fs.mkdir t' p = inr t'.
Proof. intros Hmk. by apply mkdir_from_fixed, mkdir_from_all_dirs with t. Qed.

(** Writing to a handle changes nothing but the file under it. *)
Lemma write_all_lookup t f chunks :
  (exists data, Fs.write_all t f chunks !! f = Some (Fs.File data) \/ chunks = [])
  /\ forall x, x <> f -> Fs.write_all t f chunks !! x = t !! x.
Proof.
  revert t. induction chunks as [|data rest IH]; intros t.
  - split; [exists []; by right|done].
  - destruct (IH (Fs.write t f data)) as [[d Hd] Hother]. split.
    + destruct Hd as [Hd| ->]; [exists d; by left|].
      unfold Fs.write_all. simpl. unfold Fs.write.
      destruct (t !! f) as [[|old]|]; eexists; left; apply lookup_insert_eq.
    + intros x Hx. unfold Fs.write_all in *. simpl. rewrite (Hother x Hx).
      unfold Fs.write. destruct (t !! f) as [[|old]|]; by rewrite lookup_insert_ne.
Qed.

Lemma write_all_file t f old chunks :
  t !! f = Some (Fs.File old) ->
  Fs.write_all t f chunks = <[f := Fs.File (old ++ concat chunks)%list]> t.
Proof.
  revert t old. induction chunks as [|data rest IH]; intros t old Hf.
  - simpl. rewrite app_nil_r. by rewrite insert_id.
  - unfold Fs.write_all in *. simpl. unfold Fs.write at 2. rewrite Hf.
    rewrite (IH _ (old ++ data)%list) by apply lookup_insert_eq.
    by rewrite insert_insert_eq, app_assoc.
Qed.

Lemma all_dirs_same t t' cur p :
  Fs.same_dirs t t' -> Fs.all_dirs t cur p = Fs.all_dirs t' cur p.
Proof.
  intros Hsame. revert cur. induction p as [|c rest IH]; intros cur; simpl; [done|].
  by rewrite Hsame, IH.
Qed.

Lemma resolve_from_same t t' cur p q :
  Fs.same_dirs t t' ->
  Fs.resolve_from t cur p = inr q -> Fs.resolve_from t' cur p = inr q.
Proof.
  intros Hsame. revert cur. induction p as [|c rest IH]; intros cur; simpl; [done|].
  rewrite <- Hsame. destruct (Fs.is_dir t cur); [apply IH|discriminate].
Qed.

(** A file put where there was no directory leaves the directories as
    they were. *)
Lemma same_dirs_file t t' f data :
  f <> [] ->
  Fs.lookup_node t f <> Some Fs.Dir ->
  t' !! f = Some (Fs.File data) ->
  (forall x, x <> f -> t' !! x = t !! x) ->
  Fs.same_dirs t t'.
Proof.
  intros Hf Hnodir Hfile Hother x. unfold Fs.is_dir, Fs.lookup_node.
  destruct x as [|c x]; [done|].
  destruct (decide (c :: x = f)) as [<-|Hne]; simpl.
  - rewrite Hfile. simpl in Hnodir. by destruct (t !! (c :: x)) as [[|?]|].
  - by rewrite Hother.
Qed.

End FsFacts.

(** * Splitting a path into segments *)

Section SplitFacts.

Variable sep : ascii.

Lemma split_nonempty (s : string) : PyStr.split sep s <> [].
Proof.
  destruct s as [|c rest]; simpl; [done|].
  destruct (Ascii.eqb c sep); [done|]. by destruct (PyStr.split sep rest).
Qed.

Lemma last_cons_nonempty (x : string) (l : list string) :
  l <> [] -> PyStr.last (x :: l) = PyStr.last l.
Proof. by destruct l. Qed.

Lemma split_without_sep (s : string) :
  PyStr.contains sep s = false -> PyStr.split sep s = [s].
Proof.
  induction s as [|c rest IH]; simpl; [done|].
  intros H. apply orb_false_elim in H as [Hc Hrest].
  rewrite Hc, (IH Hrest). done.
Qed.

Lemma split_singleton (s x : string) :
  PyStr.split sep s = [x] -> s = x /\ PyStr.contains sep s = false.
Proof.
  revert x. induction s as [|c rest IH]; intros x; simpl.
  - by intros [= <-].
  - destruct (Ascii.eqb c sep) eqn:Hc.
    + intros [= _ Hnil]. by apply split_nonempty in Hnil.
    + destruct (PyStr.split sep rest) as [|piece pieces] eqn:Hsplit.
      { by apply split_nonempty in Hsplit. }
      intros [= <- ->]. destruct (IH piece eq_refl) as [-> Hno]. by rewrite Hno.
Qed.

Lemma endswith_cons (c : ascii) (s : string) :
  s = EmptyString /\ c = sep \/ PyStr.endswith sep s = true ->
  PyStr.endswith sep (String c s) = true.
Proof.
  intros [[-> ->]|H]; simpl; [apply Ascii.eqb_refl|].
  destruct s; [discriminate|done].
Qed.

(** The last piece is what follows the last separator. *)
Lemma split_last (s : string) :
  exists pre,
    s = pre ++ PyStr.last (PyStr.split sep s)
    /\ PyStr.contains sep (PyStr.last (PyStr.split sep s)) = false
    /\ (pre = EmptyString \/ PyStr.endswith sep pre = true).
Proof.
  induction s as [|c rest (pre & Heq & Hno & Hpre)]; simpl.
  - exists EmptyString. auto.
  - destruct (Ascii.eqb c sep) eqn:Hc.
    + apply Ascii.eqb_eq in Hc as ->.
      rewrite last_cons_nonempty by apply split_nonempty.
      exists (String sep pre). split; [by rewrite Heq at 1|].
      split; [done|]. right. apply endswith_cons.
      destruct Hpre as [->|Hpre]; auto.
    + destruct (PyStr.split sep rest) as [|piece [|q qs]] eqn:Hsplit.
      * by apply split_nonempty in Hsplit.
      * apply split_singleton in Hsplit as [-> Hrest].
        exists EmptyString. simpl. rewrite Hc, Hrest. auto.
      * rewrite last_cons_nonempty by done.
        rewrite last_cons_nonempty in Heq, Hno by done.
        exists (String c pre). split; [by rewrite Heq at 1|].
        split; [done|]. right. apply endswith_cons. right.
        destruct Hpre as [->|Hpre]; [|done].
        simpl in Heq. rewrite (split_without_sep rest) in Hsplit; [done|].
        by rewrite Heq.
Qed.

(** A string that ends with the separator has an empty last piece. *)
Lemma split_endswith (s : string) :
  PyStr.endswith sep s = true -> PyStr.last (PyStr.split sep s) = EmptyString.
Proof.
  induction s as [|c rest IH]; simpl; [discriminate|].
  destruct rest as [|d rest'].
  - intros ->. done.
  - intros Hend. specialize (IH Hend).
    destruct (Ascii.eqb c sep).
    + by rewrite last_cons_nonempty by apply split_nonempty.
    + destruct (PyStr.split sep (String d rest')) as [|piece [|q qs]] eqn:Hsplit.
      * by apply split_nonempty in Hsplit.
      * change (piece = EmptyString) in IH. subst piece.
        apply split_singleton in Hsplit as [Hs _]. discriminate.
      * by rewrite last_cons_nonempty.
Qed.

End SplitFacts.

Lemma div_segment (p : Fs.path) (seg : string) :
  PyStr.contains "/" seg = false ->
  Fs.div p seg
  = if bool_decide (seg = "" \/ seg = ".") then p else (p ++ [seg])%list.
Proof.
  intros Hno. unfold Fs.div. rewrite (split_without_sep _ _ Hno). simpl.
  destruct (bool_decide (seg = "" \/ seg = ".")); simpl; [apply app_nil_r|done].
Qed.

Lemma div_empty (p : Fs.path) : Fs.div p "" = p.
Proof. unfold Fs.div. simpl. apply app_nil_r. Qed.

(** * Properties of [download_url] *)

Section DownloadFacts.

Variable urlparse_path : string -> result string.
Variable int_of_str : string -> option Z.
Variable requests_get : nat -> string -> string + response.

Local Abbreviation download := (download_url urlparse_path int_of_str requests_get).

(** The cached branch. *)
Lemma download_url_hit (url : string) (download_path : Fs.path) (s : state)
    (cache_name : string) (t : gmap (list string) Fs.node) :
  cache_name_of urlparse_path url = inr cache_name ->
  Fs.mkdir (fs s) download_path = inr t ->
  Fs.exists_ t (Fs.div download_path cache_name) = true ->
  download url download_path s
  = (with_output (with_fs s t) ((cache_name ++ " already downloaded") ++ LF),
     inr (Fs.div download_path cache_name)).
Proof.
  intros Hname Hmk Hex.
  unfold download_url, bind, lift, mkdir, set_fs, path_exists.
  rewrite Hname, Hmk. simpl. rewrite Hex. reflexivity.
Qed.

(** The other branch, up to the test of the status. *)
Lemma download_url_miss (url : string) (download_path : Fs.path) (s : state)
    (cache_name : string) (t : gmap (list string) Fs.node) (r : response) :
  cache_name_of urlparse_path url = inr cache_name ->
  Fs.mkdir (fs s) download_path = inr t ->
  Fs.exists_ t (Fs.div download_path cache_name) = false ->
  requests_get (length (requested s)) url = inr r ->
  download url download_path s
  = let s1 := with_request (with_fs s t) url in
    let filename := Fs.div download_path cache_name in
    if status_code r =? 404 then (s1, inl (MissingNetworkResourceError url))
    else if negb (status_code r =? 200)
    then (s1, inl (BadNetworkResourceError url (status_code r)))
    else (let! f := open_wb filename in
          save int_of_str f r ;; print "" LF ;; ret filename) s1.
Proof.
  intros Hname Hmk Hex Hget.
  unfold download_url, bind at 1 2 3 4, lift, mkdir, set_fs, path_exists, get.
  rewrite Hname, Hmk. simpl. rewrite Hex. simpl. rewrite Hget.
  destruct (status_code r =? 404); [done|].
  destruct (status_code r =? 200); done.
Qed.

Lemma write_chunks_no_status_error (f : Fs.path) (total : Z)
    (chunks : list (list byte)) (downloaded : Z) (s s' : state) (e : exn) :
  write_chunks f total downloaded chunks s = (s', inl e) ->
  is_status_error e = false.
Proof.
  revert downloaded s. induction chunks as [|data rest IH]; intros downloaded s; simpl.
  - discriminate.
  - unfold bind at 1 2 3, write, set_fs, lift, print. simpl.
    unfold PyNum.int_truediv.
    destruct (total =? 0); [by intros [= _ <-]|].
    destruct (PyNum.truediv _ _) as [[m ex]|]; [|by intros [= _ <-]].
    apply IH.
Qed.

Lemma save_no_status_error (f : Fs.path) (r : response) (s s' : state) (e : exn) :
  save int_of_str f r s = (s', inl e) -> is_status_error e = false.
Proof.
  unfold save.
  destruct (content_length r) as [h|].
  - destruct (int_of_str h) as [total|]; [|by intros [= _ <-]].
    destruct (iter_content r (1024 * 1024)) as [chunks broken].
    unfold bind.
    destruct (write_chunks f total 0 chunks s) as [s1 [e1|[]]] eqn:Hchunks.
    + intros [= _ <-]. by eapply write_chunks_no_status_error.
    + destruct broken; [by intros [= _ <-]|discriminate].
  - destruct (content r); [by intros [= _ <-]|discriminate].
Qed.

Lemma download_url_mkdir_fails (url : string) (download_path : Fs.path) (s : state)
    (cache_name : string) (e : exn) :
  cache_name_of urlparse_path url = inr cache_name ->
  Fs.mkdir (fs s) download_path = inl e ->
  download url download_path s = (s, inl e).
Proof.
  intros Hname Hmk. unfold download_url, bind, lift, mkdir.
  by rewrite Hname, Hmk.
Qed.

(** What follows a 200 response either fails with an error that is not
    about the status, or returns the file name. *)
Lemma store_outcome (filename : Fs.path) (r : response) (s s' : state)
    (out : result Fs.path) :
  (let! f := open_wb filename in
   save int_of_str f r ;; print "" LF ;; ret filename) s = (s', out) ->
  out = inr filename \/ exists e, out = inl e /\ is_status_error e = false.
Proof.
  unfold bind at 1, open_wb.
  destruct (Fs.open_wb (fs s) filename) as [e|[t f]] eqn:Hopen.
  - intros [= _ <-]. right. exists e. split; [done|].
    unfold Fs.open_wb in Hopen.
    destruct (Fs.resolve (fs s) filename) as [[]|q].
    + by inversion Hopen.
    + by inversion Hopen.
    + destruct (Fs.lookup_node (fs s) q) as [[]|]; by inversion Hopen.
  - unfold bind at 1.
    destruct (save int_of_str f r _) as [s1 [e|[]]] eqn:Hsave.
    + intros [= _ <-]. right. exists e. split; [done|].
      by eapply save_no_status_error.
    + intros [= _ <-]. by left.
Qed.

(** A call that returns, returns the cache directory joined with the
    last segment of the path of the URL. *)
Lemma download_url_returns (url : string) (download_path : Fs.path)
    (s s' : state) (filename : Fs.path) :
  download url download_path s = (s', inr filename) ->
  exists path,
    urlparse_path url = inr path
    /\ filename = Fs.div download_path (PyStr.last (PyStr.split "/" path)).
Proof.
  unfold download_url, cache_name_of, bind at 1, lift.
  destruct (urlparse_path url) as [e|path]; [discriminate|].
  intros Hrun. exists path. split; [done|].
  revert Hrun. unfold bind at 1, mkdir.
  destruct (Fs.mkdir (fs s) download_path) as [e|t]; [discriminate|].
  unfold set_fs, bind at 1, path_exists. simpl.
  destruct (Fs.exists_ t _); simpl.
  - by intros [= _ <-].
  - unfold bind at 1, get. simpl.
    destruct (requests_get _ url) as [err|r]; [discriminate|].
    destruct (status_code r =? 404); [discriminate|].
    destruct (status_code r =? 200); [|discriminate]. simpl.
    intros Hstore. apply store_outcome in Hstore as [[= ->]|(e & [=] & _)]. done.
Qed.

Lemma write_chunks_fs (f : Fs.path) (total : Z) (chunks : list (list byte))
    (downloaded : Z) (s s' : state) :
  write_chunks f total downloaded chunks s = (s', inr tt) ->
  fs s' = Fs.write_all (fs s) f chunks /\ requested s' = requested s.
Proof.
  revert downloaded s. induction chunks as [|data rest IH]; intros downloaded s; simpl.
  - by intros [= <-].
  - unfold bind at 1 2 3, write, set_fs, lift, print. simpl.
    destruct (PyNum.int_truediv _ total) as [e|done]; [discriminate|].
    intros Hrest. by apply IH in Hrest as [-> ->].
Qed.

Lemma save_fs (f : Fs.path) (r : response) (s s' : state) :
  save int_of_str f r s = (s', inr tt) ->
  (exists chunks, fs s' = Fs.write_all (fs s) f chunks)
  /\ requested s' = requested s.
Proof.
  unfold save.
  destruct (content_length r) as [h|].
  - destruct (int_of_str h) as [total|]; [|discriminate].
    destruct (iter_content r (1024 * 1024)) as [chunks broken].
    unfold bind.
    destruct (write_chunks f total 0 chunks s) as [s1 [e1|[]]] eqn:Hchunks;
      [discriminate|].
    destruct broken; [discriminate|]. intros [= <-].
    apply write_chunks_fs in Hchunks as [Hfs Hreq]. split; [by exists chunks|done].
  - destruct (content r) as [err|body]; [discriminate|].
    intros [= <-]. split; [by exists [body]|done].
Qed.

Lemma open_wb_inv (t t1 : gmap (list string) Fs.node) (filename f : Fs.path) :
  Fs.open_wb t filename = inr (t1, f) ->
  Fs.resolve t filename = inr f
  /\ f <> []
  /\ Fs.lookup_node t f <> Some Fs.Dir
  /\ t1 = <[f := Fs.File []]> t.
Proof.
  unfold Fs.open_wb.
  destruct (Fs.resolve t filename) as [err|q]; [discriminate|].
  destruct (Fs.lookup_node t q) as [[|data]|] eqn:Hnode; [discriminate| |];
    intros [= <- <-]; (repeat split; [by intros ->|by rewrite Hnode]).
Qed.

(** A download that completes leaves a file at the resolved file name
    and touches nothing else. *)
Lemma store_success (filename : Fs.path) (r : response) (s s' : state)
    (out : Fs.path) :
  (let! f := open_wb filename in
   save int_of_str f r ;; print "" LF ;; ret filename) s = (s', inr out) ->
  exists q chunks,
    Fs.resolve (fs s) filename = inr q
    /\ q <> []
    /\ Fs.lookup_node (fs s) q <> Some Fs.Dir
    /\ fs s' = <[q := Fs.File (concat chunks)]> (fs s)
    /\ requested s' = requested s.
Proof.
  unfold bind at 1, open_wb.
  destruct (Fs.open_wb (fs s) filename) as [e|[t f]] eqn:Hopen; [discriminate|].
  apply open_wb_inv in Hopen as (Hres & Hne & Hnodir & ->).
  unfold bind at 1.
  destruct (save int_of_str f r _) as [s1 [e|[]]] eqn:Hsave; [discriminate|].
  apply save_fs in Hsave as [[chunks Hfs] Hreq]. simpl in Hfs, Hreq.
  intros [= <- _]. exists f, chunks. simpl.
  repeat split; try done.
  rewrite Hfs, (write_all_file _ _ []) by apply lookup_insert_eq.
  by rewrite insert_insert_eq.
Qed.

(** A second call after one that returned finds the file in the cache. *)
Lemma download_url_again (url : string) (download_path : Fs.path)
    (s s1 : state) (filename : Fs.path) :
  download url download_path s = (s1, inr filename) ->
  exists cache_name,
    cache_name_of urlparse_path url = inr cache_name
    /\ download url download_path s1
       = (with_output s1 ((cache_name ++ " already downloaded") ++ LF),
          inr filename).
Proof.
  intros Hrun.
  destruct (download_url_returns _ _ _ _ _ Hrun) as (path & Hpath & ->).
  assert (Hname : cache_name_of urlparse_path url
                  = inr (PyStr.last (PyStr.split "/" path)))
    by (unfold cache_name_of; by rewrite Hpath).
  exists (PyStr.last (PyStr.split "/" path)). split; [done|].
  destruct (Fs.mkdir (fs s) download_path) as [e|t] eqn:Hmk.
  { rewrite (download_url_mkdir_fails _ _ _ _ _ Hname Hmk) in Hrun. discriminate. }
  destruct (Fs.exists_ t (Fs.div download_path (PyStr.last (PyStr.split "/" path))))
    eqn:Hex.
  - rewrite (download_url_hit _ _ _ _ _ Hname Hmk Hex) in Hrun.
    injection Hrun as <-.
    set (s1 := with_output (with_fs s t) _).
    by rewrite (download_url_hit url download_path s1 _ t Hname
                  (mkdir_idempotent _ _ _ Hmk) Hex).
  - destruct (requests_get (length (requested s)) url) as [err|r] eqn:Hget.
    { revert Hrun. unfold download_url, bind at 1 2 3 4, lift, mkdir, set_fs,
        path_exists, get.
      rewrite Hname, Hmk. simpl. rewrite Hex. simpl. by rewrite Hget. }
    rewrite (download_url_miss _ _ _ _ _ _ Hname Hmk Hex Hget) in Hrun.
    cbv zeta in Hrun.
    destruct (status_code r =? 404); [discriminate|].
    destruct (status_code r =? 200); [|discriminate]. simpl in Hrun.
    apply store_success in Hrun as (q & chunks & Hres & Hq & Hnodir & Hfs & Hreq).
    simpl in Hres, Hnodir, Hfs, Hreq.
    assert (Hsame : Fs.same_dirs t (fs s1)).
    { apply (same_dirs_file t (fs s1) q (concat chunks)); try done.
      - rewrite Hfs. apply lookup_insert_eq.
      - intros x Hx. rewrite Hfs. by rewrite lookup_insert_ne. }
    assert (Hmk1 : Fs.mkdir (fs s1) download_path = inr (fs s1)).
    { apply mkdir_from_fixed. rewrite <- (all_dirs_same t) by done.
      by eapply mkdir_from_all_dirs. }
    assert (Hex1 : Fs.exists_ (fs s1)
                     (Fs.div download_path (PyStr.last (PyStr.split "/" path)))
                   = true).
    { unfold Fs.exists_, Fs.resolve.
      rewrite (resolve_from_same t (fs s1) _ _ q Hsame Hres).
      apply bool_decide_eq_true. rewrite Hfs, lookup_node_insert_eq by done.
      by eexists. }
    rewrite (download_url_hit _ _ _ _ _ Hname Hmk1 Hex1). by destruct s1.
Qed.

End DownloadFacts.

(** C3. When the request is made and answered, a status of 404 makes
    [download_url] raise [MissingNetworkResourceError] with the URL, any
    other status than 200 makes it raise [BadNetworkResourceError] with
    the URL and the status, and with a status of 200 it raises neither. *)
Theorem download_url_status
    (urlparse_path : string -> result string)
    (int_of_str : string -> option Z)
    (requests_get : nat -> string -> string + response)
    (url : string) (download_path : Fs.path) (s : state)
    (cache_name : string) (t : gmap (list string) Fs.node) (r : response) :
  cache_name_of urlparse_path url = inr cache_name ->
  Fs.mkdir (fs s) download_path = inr t ->
  Fs.exists_ t (Fs.div download_path cache_name) = false ->
  requests_get (length (requested s)) url = inr r ->
  let outcome :=
    snd (download_url urlparse_path int_of_str requests_get url download_path s) in
  (status_code r = 404 -> outcome = inl (MissingNetworkResourceError url))
  /\ (status_code r <> 404 -> status_code r <> 200 ->
      outcome = inl (BadNetworkResourceError url (status_code r)))
  /\ (status_code r = 200 -> forall e, outcome = inl e -> is_status_error e = false).
Proof.
  intros Hname Hmk Hex Hget outcome. subst outcome.
  rewrite (download_url_miss _ _ _ _ _ _ _ _ _ Hname Hmk Hex Hget). cbv zeta.
  split; [|split].
  - intros ->. done.
  - intros H404 H200. apply Z.eqb_neq in H404, H200. by rewrite H404, H200.
  - intros -> e. simpl.
    destruct ((let! f := open_wb _ in _) _) as [s' out] eqn:Hstore. simpl.
    intros ->. apply store_outcome in Hstore as [[=]|(e' & [= <-] & He)]. done.
Qed.

Lemma download_url_status_witness :
  let outcome :=
    snd (Demo.download_url "https://example.com/broken" Demo.cache Demo.empty_state) in
  (status_code (Demo.status_response 500) = 404 ->
   outcome = inl (MissingNetworkResourceError "https://example.com/broken"))
  /\ (status_code (Demo.status_response 500) <> 404 ->
      status_code (Demo.status_response 500) <> 200 ->
      outcome = inl (BadNetworkResourceError "https://example.com/broken"
                       (status_code (Demo.status_response 500))))
  /\ (status_code (Demo.status_response 500) = 200 ->
      forall e, outcome = inl e -> is_status_error e = false).
Proof.
  apply (download_url_status Demo.urlparse_path Demo.int_of_str Demo.requests_get
           "https://example.com/broken" Demo.cache Demo.empty_state
           "broken" Demo.cache_tree (Demo.status_response 500));
    vm_compute; reflexivity.
Defined.

(** C9. When the file is not in the cache and the response has another
    status than 200, [download_url] raises before it opens the file: the
    file system is the one [mkdir] left, the file still does not exist,
    and no file anywhere was created or changed. *)
Theorem download_url_status_error_writes_nothing
    (urlparse_path : string -> result string)
    (int_of_str : string -> option Z)
    (requests_get : nat -> string -> string + response)
    (url : string) (download_path : Fs.path) (s : state)
    (cache_name : string) (t : gmap (list string) Fs.node) (r : response) :
  cache_name_of urlparse_path url = inr cache_name ->
  Fs.mkdir (fs s) download_path = inr t ->
  Fs.exists_ t (Fs.div download_path cache_name) = false ->
  requests_get (length (requested s)) url = inr r ->
  status_code r <> 200 ->
  let run := download_url urlparse_path int_of_str requests_get url download_path s in
  (exists e, snd run = inl e /\ is_status_error e = true)
  /\ fs (fst run) = t
  /\ Fs.exists_ (fs (fst run)) (Fs.div download_path cache_name) = false
  /\ forall q data,
       fs (fst run) !! q = Some (Fs.File data) <-> fs s !! q = Some (Fs.File data).
Proof.
  intros Hname Hmk Hex Hget H200 run. subst run.
  rewrite (download_url_miss _ _ _ _ _ _ _ _ _ Hname Hmk Hex Hget). cbv zeta.
  apply Z.eqb_neq in H200. rewrite H200. simpl.
  assert (Hfiles : forall q data,
             t !! q = Some (Fs.File data) <-> fs s !! q = Some (Fs.File data))
    by (intros q data; by eapply mkdir_from_files).
  destruct (status_code r =? 404); simpl; (split; [eexists; by split|done]).
Qed.

Lemma download_url_status_error_writes_nothing_witness :
  let run := Demo.download_url "https://example.com/missing.zip" Demo.cache
                               Demo.empty_state in
  (exists e, snd run = inl e /\ is_status_error e = true)
  /\ fs (fst run) = Demo.cache_tree
  /\ Fs.exists_ (fs (fst run)) (Fs.div Demo.cache "missing.zip") = false
  /\ forall q data,
       fs (fst run) !! q = Some (Fs.File data)
       <-> fs Demo.empty_state !! q = Some (Fs.File data).
Proof.
  apply (download_url_status_error_writes_nothing
           Demo.urlparse_path Demo.int_of_str Demo.requests_get
           "https://example.com/missing.zip" Demo.cache Demo.empty_state
           "missing.zip" Demo.cache_tree (Demo.status_response 404));
    vm_compute; (reflexivity || discriminate).
Defined.

(** C10. When the path of the URL ends with a slash, the cache name is
    empty and the file name is the cache directory itself. Unless
    [mkdir] fails, the directory then exists and [download_url] returns
    it as cached; either way no request is made and no file is written. *)
Theorem download_url_trailing_slash
    (urlparse_path : string -> result string)
    (int_of_str : string -> option Z)
    (requests_get : nat -> string -> string + response)
    (url : string) (download_path : Fs.path) (s : state) (path : string) :
  urlparse_path url = inr path ->
  PyStr.endswith "/" path = true ->
  let run := download_url urlparse_path int_of_str requests_get url download_path s in
  cache_name_of urlparse_path url = inr ""
  /\ Fs.div download_path "" = download_path
  /\ run = match Fs.mkdir (fs s) download_path with
           | inr t => (with_output (with_fs s t) ("" ++ " already downloaded" ++ LF),
                       inr download_path)
           | inl e => (s, inl e)
           end
  /\ requested (fst run) = requested s
  /\ forall q data,
       fs (fst run) !! q = Some (Fs.File data) <-> fs s !! q = Some (Fs.File data).
Proof.
  intros Hpath Hend run.
  assert (Hname : cache_name_of urlparse_path url = inr "").
  { unfold cache_name_of. by rewrite Hpath, split_endswith. }
  assert (Hrun : run = match Fs.mkdir (fs s) download_path with
                       | inr t => (with_output (with_fs s t)
                                     ("" ++ " already downloaded" ++ LF),
                                   inr download_path)
                       | inl e => (s, inl e)
                       end).
  { subst run. destruct (Fs.mkdir (fs s) download_path) as [e|t] eqn:Hmk.
    - by eapply download_url_mkdir_fails.
    - rewrite (download_url_hit _ _ _ _ _ _ "" t Hname Hmk).
      + by rewrite div_empty.
      + rewrite div_empty. by eapply exists_after_mkdir. }
  split; [done|]. split; [apply div_empty|]. split; [done|].
  rewrite Hrun. destruct (Fs.mkdir (fs s) download_path) as [e|t] eqn:Hmk; simpl.
  - done.
  - split; [done|]. intros q data. by eapply mkdir_from_files.
Qed.

Lemma download_url_trailing_slash_witness :
  let run := Demo.download_url "https://example.com/support/" Demo.cache
                               Demo.empty_state in
  cache_name_of Demo.urlparse_path "https://example.com/support/" = inr ""
  /\ Fs.div Demo.cache "" = Demo.cache
  /\ run = match Fs.mkdir (fs Demo.empty_state) Demo.cache with
           | inr t => (with_output (with_fs Demo.empty_state t)
                         ("" ++ " already downloaded" ++ LF),
                       inr Demo.cache)
           | inl e => (Demo.empty_state, inl e)
           end
  /\ requested (fst run) = requested Demo.empty_state
  /\ forall q data,
       fs (fst run) !! q = Some (Fs.File data)
       <-> fs Demo.empty_state !! q = Some (Fs.File data).
Proof.
  apply (download_url_trailing_slash Demo.urlparse_path Demo.int_of_str
           Demo.requests_get "https://example.com/support/" Demo.cache
           Demo.empty_state "/support/");
    vm_compute; reflexivity.
Defined.

(** C4. When the file name already exists once the cache directory is
    there, [download_url] makes no request, prints that the file is
    already downloaded and returns the file name, leaving the file
    system as [mkdir] left it. And whenever a call returns a path, the
    same call made again returns that path without a request and without
    touching the file system. *)
Theorem download_url_cached
    (urlparse_path : string -> result string)
    (int_of_str : string -> option Z)
    (requests_get : nat -> string -> string + response)
    (url : string) (download_path : Fs.path) (s : state) :
  (forall cache_name t,
     cache_name_of urlparse_path url = inr cache_name ->
     Fs.mkdir (fs s) download_path = inr t ->
     Fs.exists_ t (Fs.div download_path cache_name) = true ->
     let run := download_url urlparse_path int_of_str requests_get url download_path s in
     snd run = inr (Fs.div download_path cache_name)
     /\ requested (fst run) = requested s
     /\ stdout (fst run)
        = (stdout s ++ [((cache_name ++ " already downloaded") ++ LF)%string])%list
     /\ fs (fst run) = t)
  /\ (forall s1 filename,
        download_url urlparse_path int_of_str requests_get url download_path s
        = (s1, inr filename) ->
        let again :=
          download_url urlparse_path int_of_str requests_get url download_path s1 in
        snd again = inr filename
        /\ requested (fst again) = requested s1
        /\ fs (fst again) = fs s1).
Proof.
  split.
  - intros cache_name t Hname Hmk Hex run. subst run.
    by rewrite (download_url_hit _ _ _ _ _ _ _ _ Hname Hmk Hex).
  - intros s1 filename Hrun again. subst again.
    destruct (download_url_again _ _ _ _ _ _ _ _ Hrun) as (cache_name & _ & ->).
    done.
Qed.

Lemma download_url_cached_witness :
  let url := "https://example.com/support/python.tar.gz" in
  let s := fst (Demo.download_url url Demo.cache Demo.empty_state) in
  let run := Demo.download_url url Demo.cache s in
  (snd run = inr (Fs.div Demo.cache "python.tar.gz")
   /\ requested (fst run) = requested s
   /\ stdout (fst run)
      = (stdout s ++ [(("python.tar.gz" ++ " already downloaded") ++ LF)%string])%list
   /\ fs (fst run) = fs s)
  /\ (let again := Demo.download_url url Demo.cache (fst run) in
      snd again = inr (Fs.div Demo.cache "python.tar.gz")
      /\ requested (fst again) = requested (fst run)
      /\ fs (fst again) = fs (fst run)).
Proof.
  intros url s run.
  destruct (download_url_cached Demo.urlparse_path Demo.int_of_str Demo.requests_get
              url Demo.cache s) as [Hhit Hagain].
  split.
  - apply (Hhit "python.tar.gz" (fs s)); vm_compute; reflexivity.
  - apply (Hagain (fst run) (Fs.div Demo.cache "python.tar.gz")).
    vm_compute. reflexivity.
Defined.

(** Two calls in a row on an example: the first downloads, the second
    finds the file. *)
Example download_url_twice :
  let first := Demo.download_url "https://example.com/support/python.tar.gz"
                                 Demo.cache Demo.empty_state in
  let second := Demo.download_url "https://example.com/support/python.tar.gz"
                                  Demo.cache (fst first) in
  snd first = inr ["home"; "user"; ".briefcase"; "support"; "python.tar.gz"]
  /\ snd second = snd first
  /\ requested (fst first) = ["https://example.com/support/python.tar.gz"]
  /\ requested (fst second) = requested (fst first).
Proof. vm_compute. repeat split. Qed.

(** C5. The path a call returns is the cache directory joined with the
    last segment of the path of the URL: what follows the last slash of
    [urlparse(url).path], which is that path without query and fragment.
    It is the same for every call with these arguments, whatever the
    state. *)
Theorem download_url_filename
    (urlparse_path : string -> result string)
    (int_of_str : string -> option Z)
    (requests_get : nat -> string -> string + response)
    (url : string) (download_path : Fs.path) (s s' : state) (filename : Fs.path) :
  download_url urlparse_path int_of_str requests_get url download_path s
  = (s', inr filename) ->
  exists path pre segment,
    urlparse_path url = inr path
    /\ path = pre ++ segment
    /\ PyStr.contains "/" segment = false
    /\ (pre = "" \/ PyStr.endswith "/" pre = true)
    /\ filename = Fs.div download_path segment
    /\ filename = (if bool_decide (segment = "" \/ segment = ".")
                   then download_path
                   else (download_path ++ [segment])%list)
    /\ forall (get2 : nat -> string -> string + response) s2 s2' filename2,
         download_url urlparse_path int_of_str get2 url download_path s2
         = (s2', inr filename2) ->
         filename2 = filename.
Proof.
  intros Hrun.
  destruct (download_url_returns _ _ _ _ _ _ _ _ Hrun) as (path & Hpath & ->).
  destruct (split_last "/" path) as (pre & Heq & Hno & Hpre).
  exists path, pre, (PyStr.last (PyStr.split "/" path)).
  repeat split; try done.
  - by apply div_segment.
  - intros get2 s2 s2' filename2 Hrun2.
    destruct (download_url_returns _ _ _ _ _ _ _ _ Hrun2) as (path2 & Hpath2 & ->).
    congruence.
Qed.

Lemma download_url_filename_witness :
  exists path pre segment,
    Demo.urlparse_path "https://example.com/support/plain.txt?v=1#top" = inr path
    /\ path = pre ++ segment
    /\ PyStr.contains "/" segment = false
    /\ (pre = "" \/ PyStr.endswith "/" pre = true)
    /\ ["home"; "user"; ".briefcase"; "support"; "plain.txt"]
       = Fs.div Demo.cache segment
    /\ ["home"; "user"; ".briefcase"; "support"; "plain.txt"]
       = (if bool_decide (segment = "" \/ segment = ".")
          then Demo.cache
          else (Demo.cache ++ [segment])%list)
    /\ forall (get2 : nat -> string -> string + response) s2 s2' filename2,
         download_url Demo.urlparse_path Demo.int_of_str get2
                      "https://example.com/support/plain.txt?v=1#top" Demo.cache s2
         = (s2', inr filename2) ->
         filename2 = ["home"; "user"; ".briefcase"; "support"; "plain.txt"].
Proof.
  apply (download_url_filename Demo.urlparse_path Demo.int_of_str Demo.requests_get
           "https://example.com/support/plain.txt?v=1#top" Demo.cache
           Demo.empty_state
           (fst (Demo.download_url "https://example.com/support/plain.txt?v=1#top"
                                   Demo.cache Demo.empty_state))).
  vm_compute. reflexivity.
Defined.

(** * Properties of [parse_config] *)

Lemma open_read_absent (t : gmap (list string) Fs.node) (filename : Fs.path) :
  Fs.absent t filename = true ->
  Fs.open_read t filename = inl (FileNotFoundError filename).
Proof.
  unfold Fs.absent, Fs.open_read.
  destruct (Fs.resolve t filename) as [[]|q]; try done.
  intros H. apply bool_decide_eq_true in H. by rewrite H.
Qed.

(** C6. When there is no file at the given name, [parse_config] raises
    [BriefcaseConfigError] with the message "configuration file not
    found". An error of the parser, unless it is itself a
    [FileNotFoundError], is raised as the parser raised it. *)
Theorem parse_config_file_not_found
    (set_iter : gset string -> list string)
    (config_parse : list byte -> string -> string ->
                    result (gmap string value * list (string * gmap string value)))
    (platform output_format : string)
    (GLOBAL_CONFIG_CLASS APP_CONFIG_CLASS : klass)
    (filename : Fs.path) (s : state) :
  (Fs.absent (fs s) filename = true ->
   parse_config set_iter config_parse platform output_format
                GLOBAL_CONFIG_CLASS APP_CONFIG_CLASS filename s
   = (s, inl (BriefcaseConfigError "configuration file not found")))
  /\ (forall config_file e,
        Fs.open_read (fs s) filename = inr config_file ->
        config_parse config_file platform output_format = inl e ->
        is_FileNotFoundError e = false ->
        parse_config set_iter config_parse platform output_format
                     GLOBAL_CONFIG_CLASS APP_CONFIG_CLASS filename s
        = (s, inl e)).
Proof.
  split.
  - intros Habsent. unfold parse_config, try_except, bind at 1, open_read.
    by rewrite (open_read_absent _ _ Habsent).
  - intros config_file e Hopen Hparse Hkind.
    unfold parse_config, try_except, bind at 1 2, open_read, lift.
    rewrite Hopen, Hparse. unfold raise. by rewrite Hkind.
Qed.

Lemma parse_config_file_not_found_witness :
  let s := State None ∅ {[ ["project"] := Fs.Dir;
                           ["project"; "pyproject.toml"] := Fs.File [] ]} [] [] in
  Demo.parse_config ["project"; "setup.cfg"] s
  = (s, inl (BriefcaseConfigError "configuration file not found"))
  /\ Demo.parse_config ["project"; "pyproject.toml"] s
     = (s, inl (BriefcaseConfigError "Invalid pyproject.toml")).
Proof.
  intros s. split.
  - apply (parse_config_file_not_found elements Demo.config_parse "macOS" "app"
             Demo.GlobalConfig Demo.AppConfig ["project"; "setup.cfg"] s).
    vm_compute. reflexivity.
  - apply (parse_config_file_not_found elements Demo.config_parse "macOS" "app"
             Demo.GlobalConfig Demo.AppConfig ["project"; "pyproject.toml"] s)
      with (config_file := []); vm_compute; reflexivity.
Defined.

(** * Integer true division on the range where floats are exact *)

Lemma round_half_even_cases (n d : Z) :
  PyNum.round_half_even n d = n / d
  \/ (PyNum.round_half_even n d = n / d + 1 /\ d <= 2 * (n mod d)).
Proof.
  unfold PyNum.round_half_even.
  destruct (Z.ltb_spec (2 * (n mod d)) d); [by left|].
  destruct (Z.ltb_spec d (2 * (n mod d))); [by right|].
  destruct (Z.even (n / d)); [by left|by right].
Qed.

Lemma div_scaled (a b P : Z) : 0 < b -> 0 < P -> (a * P) / b / P = a / b.
Proof.
  intros Hb HP. rewrite Z.div_div by lia.
  rewrite Z.div_mul_cancel_r by lia. done.
Qed.

Lemma round_scaled (a b P : Z) :
  0 <= a -> 0 < b -> 0 < P ->
  b < 2 * P \/ (a * P) / b + 1 < (a / b + 1) * P ->
  PyNum.round_half_even (a * P) b / P = a / b.
Proof.
  intros Ha Hb HP Hcond.
  destruct (round_half_even_cases (a * P) b) as [->|[-> Hhalf]];
    [by apply div_scaled|].
  pose proof (div_scaled a b P Hb HP) as Hq.
  pose proof (Z.div_mod a b ltac:(lia)) as Hab.
  pose proof (Z.mod_pos_bound a b Hb) as HR.
  pose proof (Z.div_mod (a * P) b ltac:(lia)) as HaP.
  pose proof (Z.mod_pos_bound (a * P) b Hb) as Hr.
  set (Q := a / b) in *. set (R := a mod b) in *.
  set (q := a * P / b) in *. set (r := (a * P) mod b) in *.
  pose proof (Z.div_mod q P ltac:(lia)) as HqP.
  pose proof (Z.mod_pos_bound q P HP) as HqP'.
  rewrite Hq in HqP.
  assert (Hlt : q + 1 < (Q + 1) * P).
  { destruct Hcond as [Hsmall|Hlt]; [|done].
    destruct (Z_lt_le_dec (q + 1) ((Q + 1) * P)) as [|Hge]; [done|exfalso].
    assert (b * (q - Q * P) = R * P - r) by nia.
    assert (P - 1 <= q - Q * P) by nia.
    assert (b * (P - 1) <= R * P - r) by nia.
    assert (P * (b - R) >= P) by nia.
    nia. }
  symmetry. apply Z.div_unique with (q + 1 - P * Q). lia. lia.
Qed.

Lemma floor_log2_quot_le (a b : Z) :
  0 < a -> 0 < b -> PyNum.floor_log2_quot a b <= Z.log2 a.
Proof.
  intros Ha Hb. unfold PyNum.floor_log2_quot.
  pose proof (Z.log2_nonneg b).
  repeat case_match; lia.
Qed.

Lemma floor_log2_quot_lower (a b : Z) :
  0 < a -> 0 < b -> 0 <= PyNum.floor_log2_quot a b ->
  b * 2 ^ PyNum.floor_log2_quot a b <= a.
Proof.
  intros Ha Hb. unfold PyNum.floor_log2_quot.
  pose proof (Z.log2_spec a Ha) as [Hla _].
  pose proof (Z.log2_spec b Hb) as [_ Hlb].
  pose proof (Z.log2_nonneg b) as Hnb.
  set (la := Z.log2 a) in *. set (lb := Z.log2 b) in *.
  destruct (Z.leb_spec 0 (la - lb)) as [Hl|Hl].
  - destruct (Z.leb_spec (b * 2 ^ (la - lb)) a) as [|Hgt]; [done|].
    intros Hf.
    assert (2 ^ la = 2 ^ (Z.succ lb) * 2 ^ (la - lb - 1)) as Hpow.
    { rewrite <- Z.pow_add_r by lia. f_equal. lia. }
    assert (0 < 2 ^ (la - lb - 1)) by (apply Z.pow_pos_nonneg; lia).
    nia.
  - destruct (Z.leb_spec b (a * 2 ^ (- (la - lb)))); lia.
Qed.

Lemma int_truediv_exact (a b : Z) :
  0 <= a < 2 ^ 53 -> 0 < b -> PyNum.int_truediv a b = inr (a / b).
Proof.
  intros [Ha Hlt] Hb. unfold PyNum.int_truediv.
  destruct (Z.eqb_spec b 0) as [|_]; [lia|].
  rewrite (Z.abs_eq a), (Z.abs_eq b), (Z.sgn_pos b) by lia.
  unfold PyNum.truediv.
  destruct (Z.eqb_spec a 0) as [->|Hne].
  { simpl. by rewrite Z.div_0_l by lia. }
  assert (Hpos : 0 < a) by lia. rewrite (Z.sgn_pos a) by done.
  pose proof (floor_log2_quot_le a b Hpos Hb) as Hfle.
  pose proof (floor_log2_quot_lower a b Hpos Hb) as Hflow.
  assert (Z.log2 a < 53) as Hlog by (apply Z.log2_lt_pow2; lia).
  set (f := PyNum.floor_log2_quot a b) in *.
  set (e := Z.max (f - 52) (- 1074)).
  assert (He : e <= 0) by lia.
  destruct (Z.leb_spec 0 e) as [He0|He0].
  - (* the quotient has 53 integral bits: [b = 1] *)
    assert (f = 52) as Hf by lia. assert (e = 0) as He' by lia.
    clearbody e. subst e.
    rewrite Hf in Hflow. specialize (Hflow ltac:(lia)).
    assert (b = 1) as ->.
    { change (2 ^ 53) with (2 * 2 ^ 52) in Hlt.
      assert (0 < 2 ^ 52) by (apply Z.pow_pos_nonneg; lia).
      set (K := 2 ^ 52) in *. clearbody K. nia. }
    change (2 ^ 0) with 1. rewrite Z.mul_1_r.
    unfold PyNum.round_half_even. rewrite Z.mod_1_r, Z.div_1_r. simpl.
    destruct (Z.leb_spec (2 ^ 1024) a) as [Hover|_].
    { exfalso. assert (2 ^ 53 < 2 ^ 1024) by (apply Z.pow_lt_mono_r; lia).
      set (X := 2 ^ 53) in *. set (Y := 2 ^ 1024) in *. clearbody X Y. lia. }
    unfold PyNum.trunc. simpl. rewrite Z.div_1_r. f_equal. lia.
  - simpl. unfold PyNum.trunc.
    destruct (Z.leb_spec 0 e) as [|_]; [lia|].
    assert (HP : 0 < 2 ^ (- e)) by (apply Z.pow_pos_nonneg; lia).
    rewrite round_scaled; [f_equal; lia|lia|lia|lia|].
    destruct (Z_lt_le_dec b (2 * 2 ^ (- e))) as [|Hbig]; [by left|right].
    (* [b] is large, so the mantissa is short and [e] is not [f - 52] *)
    pose proof (Z.div_mod (a * 2 ^ (- e)) b ltac:(lia)) as Hdm.
    pose proof (Z.mod_pos_bound (a * 2 ^ (- e)) b Hb) as Hr.
    pose proof (Z.div_pos a b ltac:(lia) Hb) as HQ.
    set (P := 2 ^ (- e)) in *. set (q := a * P / b) in *.
    assert (Hq : q < 2 ^ 52).
    { change (2 ^ 53) with (2 * 2 ^ 52) in Hlt. nia. }
    destruct (Z_lt_le_dec 52 (- e)) as [Hs|Hs].
    + assert (2 ^ 52 < P) by (apply Z.pow_lt_mono_r; lia). nia.
    + exfalso. assert (e = f - 52) as Hef by lia.
      specialize (Hflow ltac:(lia)).
      assert (2 ^ 53 = 2 * 2 ^ (- e) * 2 ^ f) as Hpow.
      { change 2 with (2 ^ 1) at 2. rewrite <- !Z.pow_add_r by lia. f_equal. lia. }
      assert (0 < 2 ^ f) by (apply Z.pow_pos_nonneg; lia).
      fold P in Hpow. nia.
Qed.

(** * The progress bar *)

Lemma append_empty_r (s : string) : (s ++ "")%string = s.
Proof.
  induction s as [|c s IH]; [done|].
  change (String c (s ++ "")%string = String c s). by rewrite IH.
Qed.

Lemma len_nonneg (data : list byte) : 0 <= len data.
Proof. unfold len. lia. Qed.

Lemma len_concat_cons (data : list byte) (rest : list (list byte)) :
  len (concat (data :: rest)) = len data + len (concat rest).
Proof. unfold len. simpl. rewrite length_app. lia. Qed.

(** The loop, when the float division is exact at every step. *)
Lemma write_chunks_progress (f : Fs.path) (total : Z) (chunks : list (list byte))
    (downloaded : Z) (s : state) :
  0 < total -> 0 <= downloaded ->
  50 * (downloaded + len (concat chunks)) < 2 ^ 53 ->
  write_chunks f total downloaded chunks s
  = (State (global_config s) (apps s) (Fs.write_all (fs s) f chunks) (requested s)
           (stdout s ++ map (fun d => progress_line (50 * d / total))
                            (running_totals downloaded chunks))%list,
     inr tt).
Proof.
  intros Htotal. revert downloaded s.
  induction chunks as [|data rest IH]; intros downloaded s Hd Hbound.
  - simpl. rewrite app_nil_r. by destruct s.
  - rewrite len_concat_cons in Hbound.
    pose proof (len_nonneg data). pose proof (len_nonneg (concat rest)).
    simpl. unfold bind at 1 2 3, write, set_fs, lift, print. simpl.
    rewrite int_truediv_exact by lia. simpl.
    rewrite IH by lia. simpl. rewrite append_empty_r.
    by rewrite <- app_assoc.
Qed.

(** Where the downloaded file goes: [mkdir] made the way, and nothing is
    there yet. *)
Lemma resolve_cache_file (t0 t : gmap (list string) Fs.node)
    (download_path : Fs.path) (cache_name : string) :
  Fs.mkdir t0 download_path = inr t ->
  PyStr.contains "/" cache_name = false ->
  Fs.exists_ t (Fs.div download_path cache_name) = false ->
  exists q,
    Fs.resolve t (Fs.div download_path cache_name) = inr q
    /\ Fs.lookup_node t q = None.
Proof.
  intros Hmk Hno. rewrite (div_segment _ _ Hno).
  destruct (bool_decide (cache_name = "" \/ cache_name = ".")).
  { by rewrite (exists_after_mkdir _ _ _ Hmk). }
  unfold Fs.exists_, Fs.resolve.
  apply mkdir_from_all_dirs in Hmk.
  destruct (resolve_from_app t [] download_path [cache_name] eq_refl Hmk)
    as [-> Hdir].
  simpl. rewrite Hdir. intros Hex. eexists. split; [done|].
  apply bool_decide_eq_false in Hex.
  destruct (Fs.lookup_node t _); [|done]. exfalso. apply Hex. by eexists.
Qed.

Lemma cache_name_no_slash (urlparse_path : string -> result string)
    (url cache_name : string) :
  cache_name_of urlparse_path url = inr cache_name ->
  PyStr.contains "/" cache_name = false.
Proof.
  unfold cache_name_of. destruct (urlparse_path url) as [e|path]; [discriminate|].
  intros [= <-]. by destruct (split_last "/" path) as (pre & _ & Hno & _).
Qed.

Lemma bar_cells_concat (done : Z) :
  String.concat "" (Spec.bar_cells done)
  = (PyStr.mul "█" done ++ PyStr.mul "." (50 - done))%string.
Proof.
  unfold Spec.bar_cells, PyStr.mul.
  generalize (Z.to_nat (50 - done)). generalize (Z.to_nat done).
  intros n m. induction n as [|n IH]; simpl.
  - done.
  - destruct n as [|n].
    + simpl in *. destruct m; simpl; [done|]. done.
    + simpl in *. rewrite IH. done.
Qed.

Lemma bar_cells_length (done : Z) :
  0 <= done <= 50 -> length (Spec.bar_cells done) = 50%nat.
Proof.
  intros H. unfold Spec.bar_cells. rewrite length_app, !length_replicate. lia.
Qed.

Lemma progress_line_cells (done : Z) :
  progress_line done
  = (CR ++ String.concat "" (Spec.bar_cells done) ++ " " ++ pretty (2 * done) ++ "%")%string.
Proof.
  unfold progress_line. rewrite bar_cells_concat.
  generalize (PyStr.mul "█" done) (PyStr.mul "." (50 - done))
             (" " ++ pretty (2 * done) ++ "%")%string.
  intros x y z. f_equal. induction x as [|c x IH]; [done|].
  change (String c (x ++ y ++ z)%string = String c ((x ++ y) ++ z)%string).
  by rewrite IH.
Qed.

Lemma fiftieths_bounded (total downloaded : Z) :
  0 < total -> 0 <= downloaded <= total -> 0 <= 50 * downloaded / total <= 50.
Proof.
  intros Ht Hd. split.
  - apply Z.div_pos; lia.
  - apply Z.div_le_upper_bound; lia.
Qed.

(** C7 (as amended). For a 200 response to a request for a file that is
    not cached:
    - with a content-length that [int] reads as [total], the chunks
      [iter_content] yields for a chunk size of 1048576 are written in
      turn and, after each, a line is printed that starts with a
      carriage return and shows [done] full cells, then [50 - done] dots
      when that is positive, a space, [2 * done] and a percent sign,
      where [done] is [int(50 * downloaded / total)]; as long as
      [total] is positive and [50 * downloaded] is below [2 ^ 53] this
      is the floor of the exact quotient. A newline is printed at the
      end, the file holds the chunks and its name is returned;
    - without a content-length, the body is written at once and only
      the newline is printed;
    - the bar has 50 cells whenever [done] is between 0 and 50, which
      it is while [downloaded] does not exceed [total]. *)
Theorem download_url_progress
    (urlparse_path : string -> result string)
    (int_of_str : string -> option Z)
    (requests_get : nat -> string -> string + response)
    (url : string) (download_path : Fs.path) (s : state)
    (cache_name : string) (t : gmap (list string) Fs.node) (r : response) :
  cache_name_of urlparse_path url = inr cache_name ->
  Fs.mkdir (fs s) download_path = inr t ->
  Fs.exists_ t (Fs.div download_path cache_name) = false ->
  requests_get (length (requested s)) url = inr r ->
  status_code r = 200 ->
  let filename := Fs.div download_path cache_name in
  let run := download_url urlparse_path int_of_str requests_get url download_path s in
  exists q,
    Fs.resolve t filename = inr q
    /\ (forall h total chunks,
          content_length r = Some h ->
          int_of_str h = Some total ->
          iter_content r 1048576 = (chunks, None) ->
          0 < total ->
          50 * len (concat chunks) < 2 ^ 53 ->
          run = (State (global_config s) (apps s)
                       (<[q := Fs.File (concat chunks)]> t)
                       (requested s ++ [url])%list
                       (stdout s
                        ++ map (fun downloaded =>
                                  progress_line (50 * downloaded / total))
                               (running_totals 0 chunks)
                        ++ [LF])%list,
                 inr filename))
    /\ (forall body,
          content_length r = None ->
          content r = inr body ->
          run = (State (global_config s) (apps s) (<[q := Fs.File body]> t)
                       (requested s ++ [url])%list (stdout s ++ [LF])%list,
                 inr filename))
    /\ (forall done,
          progress_line done
          = (CR ++ String.concat "" (Spec.bar_cells done) ++ " "
                ++ pretty (2 * done) ++ "%")%string
          /\ (0 <= done <= 50 -> length (Spec.bar_cells done) = 50%nat))
    /\ (forall total downloaded,
          0 < total -> 0 <= downloaded <= total ->
          0 <= 50 * downloaded / total <= 50).
Proof.
  intros Hname Hmk Hex Hget Hstatus filename run.
  destruct (resolve_cache_file _ _ _ _ Hmk (cache_name_no_slash _ _ _ Hname) Hex)
    as (q & Hres & Hnone).
  assert (Hq : q <> []) by by eapply lookup_node_None_nonempty.
  assert (Hrun : run = (let! f := open_wb filename in
                        save int_of_str f r ;; print "" LF ;; ret filename)
                         (with_request (with_fs s t) url)).
  { subst run. rewrite (download_url_miss _ _ _ _ _ _ _ _ _ Hname Hmk Hex Hget).
    cbv zeta. by rewrite Hstatus. }
  assert (Hopen : Fs.open_wb t filename = inr (<[q := Fs.File []]> t, q)).
  { unfold Fs.open_wb. fold filename in Hres. by rewrite Hres, Hnone. }
  exists q. split; [done|]. split; [|split; [|split]].
  - intros h total chunks Hlen Hint Hiter Htotal Hbound.
    rewrite Hrun. unfold bind at 1, open_wb. simpl. rewrite Hopen.
    unfold bind at 1, save. rewrite Hlen, Hint.
    change (1024 * 1024) with 1048576. rewrite Hiter.
    unfold bind at 1. rewrite write_chunks_progress by (simpl; lia). simpl.
    rewrite (write_all_file _ _ []) by apply lookup_insert_eq.
    rewrite insert_insert_eq. unfold bind, print, ret. simpl.
    by rewrite <- app_assoc.
  - intros body Hlen Hbody.
    rewrite Hrun. unfold bind at 1, open_wb. simpl. rewrite Hopen.
    unfold bind at 1, save. rewrite Hlen, Hbody. simpl.
    unfold bind, write, set_fs, print, ret, Fs.write. simpl.
    rewrite lookup_insert_eq. simpl. by rewrite insert_insert_eq.
  - intros done. split; [apply progress_line_cells|apply bar_cells_length].
  - apply fiftieths_bounded.
Qed.

Lemma download_url_progress_witness :
  let url := "https://example.com/support/steps.bin" in
  let r := Response 200 (Some "4") (inr [x01; x02; x03; x04])
                    (fun _ => ([[x01]; [x02; x03]; [x04]], None)) in
  let s := Demo.empty_state in
  let t := Demo.cache_tree in
  let filename := Fs.div Demo.cache "steps.bin" in
  let run := Demo.download_url url Demo.cache s in
  exists q,
    Fs.resolve t filename = inr q
    /\ (forall h total chunks,
          content_length r = Some h ->
          Demo.int_of_str h = Some total ->
          iter_content r 1048576 = (chunks, None) ->
          0 < total ->
          50 * len (concat chunks) < 2 ^ 53 ->
          run = (State (global_config s) (apps s)
                       (<[q := Fs.File (concat chunks)]> t)
                       (requested s ++ [url])%list
                       (stdout s
                        ++ map (fun downloaded =>
                                  progress_line (50 * downloaded / total))
                               (running_totals 0 chunks)
                        ++ [LF])%list,
                 inr filename))
    /\ (forall body,
          content_length r = None ->
          content r = inr body ->
          run = (State (global_config s) (apps s) (<[q := Fs.File body]> t)
                       (requested s ++ [url])%list (stdout s ++ [LF])%list,
                 inr filename))
    /\ (forall done,
          progress_line done
          = (CR ++ String.concat "" (Spec.bar_cells done) ++ " "
                ++ pretty (2 * done) ++ "%")%string
          /\ (0 <= done <= 50 -> length (Spec.bar_cells done) = 50%nat))
    /\ (forall total downloaded,
          0 < total -> 0 <= downloaded <= total ->
          0 <= 50 * downloaded / total <= 50).
Proof.
  intros url r s t filename run.
  apply (download_url_progress Demo.urlparse_path Demo.int_of_str Demo.requests_get
           url Demo.cache s "steps.bin" t r);
    vm_compute; reflexivity.
Defined.

(** The run of the witness: three chunks of a file of four bytes. *)
Example download_url_steps :
  let run := Demo.download_url "https://example.com/support/steps.bin"
                               Demo.cache Demo.empty_state in
  snd run = inr ["home"; "user"; ".briefcase"; "support"; "steps.bin"]
  /\ stdout (fst run) = [progress_line 12; progress_line 37; progress_line 50; LF]
  /\ fs (fst run) !! ["home"; "user"; ".briefcase"; "support"; "steps.bin"]
     = Some (Fs.File [x01; x02; x03; x04])
  /\ progress_line 12
     = (CR ++ "████████████......................................" ++ " 24%")%string.
Proof. vm_compute. repeat split. Qed.

(** C7 (as stated) fails: when more bytes arrive than the content-length
    announced (one byte announced, a chunk of two), [done] is 100: the
    line shows 100 full cells, no dot, and 200%, so the bar is not 50
    cells wide. *)
Lemma progress_bar_overrun_counterexample :
  let run := Demo.download_url "https://example.com/support/short.bin"
                               Demo.cache Demo.empty_state in
  Demo.requests_get 0 "https://example.com/support/short.bin"
  = inr (Response 200 (Some "1") (inr [x01; x02]) (fun _ => ([[x01; x02]], None)))
  /\ snd run = inr ["home"; "user"; ".briefcase"; "support"; "short.bin"]
  /\ stdout (fst run) = [progress_line 100; LF]
  /\ progress_line 100
     = (CR ++ String.concat "" (replicate 100 "█") ++ " 200%")%string
  /\ length (Spec.bar_cells 100) = 100%nat
  /\ length (Spec.bar_cells 100) <> 50%nat.
Proof.
  repeat split; try (vm_compute; reflexivity).
  vm_compute. discriminate.
Qed.

(** Beyond that range the float rounds: just below 50 the quotient is
    rounded up to 50.0, one more than its floor. *)
Example int_truediv_rounds_up :
  PyNum.int_truediv (50 * (50 * 2 ^ 53 - 1)) (50 * 2 ^ 53) = inr 50
  /\ (50 * (50 * 2 ^ 53 - 1)) / (50 * 2 ^ 53) = 49.
Proof. split; vm_compute; reflexivity. Qed.

(** * Further properties of [create_config] *)

Section BindingFailures.

Variables (receiver : option param) (ps : list param).

Lemma bind_keyword_fold_error (l : list (string * value)) (acc : result bound_args)
    (e : exn) :
  (forall e0, acc = inl e0 -> is_TypeError e0 = true) ->
  fold_left (Call.bind_keyword receiver ps) l acc = inl e ->
  is_TypeError e = true.
Proof.
  revert acc. induction l as [|kv l IH]; intros acc Hacc; simpl.
  - apply Hacc.
  - apply IH. intros e0. unfold Call.bind_keyword.
    destruct acc as [e1|b]; [intros [= <-]; by apply Hacc|].
    destruct (Call.keyword_target ps kv.1); [discriminate|].
    destruct (Call.names_receiver receiver kv.1); [by intros [= <-]|].
    destruct (Call.has_var_keyword ps); [discriminate|by intros [= <-]].
Qed.

(** A keyword fills a named parameter only if the configuration has it. *)
Lemma bind_keyword_fold_named (l : list (string * value)) (b0 b : bound_args)
    (key : string) :
  fold_left (Call.bind_keyword receiver ps) l (inr b0) = inr b ->
  is_Some (named b !! key) ->
  is_Some (named b0 !! key) \/ key ∈ l.*1.
Proof.
  revert b0. induction l as [|kv l IH]; intros b0; simpl.
  - intros [= ->]. by left.
  - destruct (Call.keyword_target ps kv.1).
    + intros Hfold Hkey. destruct (IH _ Hfold Hkey) as [Hin|Hin].
      * simpl in Hin. destruct (decide (kv.1 = key)) as [<-|Hne].
        -- right. left.
        -- rewrite lookup_insert_ne in Hin by done. by left.
      * right. by right.
    + destruct (Call.names_receiver receiver kv.1).
      { intros Hfold. exfalso. revert Hfold.
        generalize (TypeError ("__init__() got multiple values for argument "
                                 ++ PyStr.quote kv.1)).
        clear. induction l as [|x l IH]; intros e; [discriminate|apply IH]. }
      destruct (Call.has_var_keyword ps).
      * intros Hfold Hkey. destruct (IH _ Hfold Hkey) as [Hin|Hin];
          [by left|right; by right].
      * intros Hfold. exfalso. revert Hfold.
        generalize (TypeError ("__init__() got an unexpected keyword argument "
                                 ++ PyStr.quote kv.1)).
        clear. induction l as [|x l IH]; intros e; [discriminate|apply IH].
Qed.

Lemma fill_defaults_error (qs : list param) (b : bound_args) (e : exn) :
  Call.fill_defaults qs b = inl e -> is_TypeError e = true.
Proof.
  revert b. induction qs as [|q qs IH]; intros b; simpl; [discriminate|].
  destruct (Call.is_variadic q); [apply IH|].
  destruct (named b !! name q); [apply IH|].
  destruct (default q); [apply IH|by intros [= <-]].
Qed.

(** A required parameter that the keywords left empty stops the call. *)
Lemma fill_defaults_missing (qs : list param) (b : bound_args) (p : param) :
  NoDup (map name qs) ->
  p ∈ qs -> Call.is_variadic p = false -> default p = None ->
  named b !! name p = None ->
  exists e, Call.fill_defaults qs b = inl e.
Proof.
  revert b. induction qs as [|q qs IH]; intros b Hnodup Hin Hvar Hdef Hnone.
  - by apply elem_of_nil in Hin.
  - simpl in Hnodup. apply NoDup_cons in Hnodup as [Hq Hnodup].
    apply elem_of_cons in Hin as [<-|Hin].
    + simpl. rewrite Hvar, Hnone, Hdef. by eexists.
    + assert (Hne : name q <> name p).
      { intros Heq. apply Hq. rewrite Heq, list_elem_of_In.
        apply in_map. by apply list_elem_of_In. }
      simpl. destruct (Call.is_variadic q); [by apply IH|].
      destruct (named b !! name q); [by apply IH|].
      destruct (default q); [|by eexists].
      apply IH; try done. simpl. by rewrite lookup_insert_ne.
Qed.

End BindingFailures.

(** Whatever stops the binding of the arguments is a [TypeError]. *)
Lemma bind_error (ps : list param) (config : gmap string value) (e : exn) :
  Call.bind ps config = inl e -> is_TypeError e = true.
Proof.
  unfold Call.bind.
  destruct (Call.bind_receiver ps) as [e0|[receiver rest]] eqn:Hrecv.
  - intros [= <-]. unfold Call.bind_receiver in Hrecv.
    destruct ps as [|p ps]; [by inversion Hrecv|].
    destruct (Call.is_positional p); [discriminate|].
    destruct (bool_decide _); [discriminate|by inversion Hrecv].
  - destruct (Call.bind_keywords receiver rest config) as [e0|b] eqn:Hkw.
    + intros [= <-]. unfold Call.bind_keywords in Hkw.
      eapply bind_keyword_fold_error; [|exact Hkw]. discriminate.
    + apply fill_defaults_error.
Qed.

(** The call fails when the configuration lacks a required parameter. *)
Lemma bind_missing (ps : list param) (config : gmap string value)
    (r p : param) (rest : list param) :
  ps = r :: rest ->
  NoDup (map name ps) ->
  p ∈ rest -> Call.is_variadic p = false -> default p = None ->
  config !! name p = None ->
  exists e, Call.bind ps config = inl e.
Proof.
  intros -> Hnodup Hin Hvar Hdef Hnone. unfold Call.bind.
  destruct (Call.bind_receiver (r :: rest)) as [e0|[receiver qs]] eqn:Hrecv;
    [by eexists|].
  assert (Hqs : p ∈ qs /\ NoDup (map name qs)).
  { unfold Call.bind_receiver in Hrecv.
    destruct (Call.is_positional r).
    - injection Hrecv as <- <-. split; [done|].
      simpl in Hnodup. by apply NoDup_cons in Hnodup as [_ ?].
    - destruct (bool_decide _); [|discriminate].
      injection Hrecv as <- <-. split; [by right|done]. }
  destruct Hqs as [Hp Hnd].
  destruct (Call.bind_keywords receiver qs config) as [e0|b] eqn:Hkw; [by eexists|].
  apply fill_defaults_missing with p; try done.
  destruct (named b !! name p) as [v|] eqn:Hlook; [exfalso|done].
  unfold Call.bind_keywords in Hkw.
  destruct (bind_keyword_fold_named _ _ _ _ _ (name p) Hkw) as [Hb|Hl].
  - by rewrite Hlook.
  - simpl in Hb. rewrite lookup_empty in Hb. by destruct Hb.
  - apply list_elem_of_fmap in Hl as ([k v'] & Hk & Hl). simpl in Hk. subst k.
    apply elem_of_map_to_list in Hl. congruence.
Qed.

(** X1. [create_config] never lets a [TypeError] out. It returns the
    object the constructor body built from the bound arguments, or
    raises the report about an incomplete configuration, or passes on
    an exception other than [TypeError] that the constructor body
    raised; a call whose arguments do not bind always ends in the
    report. *)
Theorem create_config_outcomes
    (set_iter : gset string -> list string)
    (k : klass) (config : gmap string value) (msg : string) :
  match create_config set_iter k config msg with
  | inr obj =>
      exists b, Call.bind (init_params k) config = inr b /\ init_body k b = inr obj
  | inl e =>
      is_TypeError e = false
      /\ (e = BriefcaseConfigError (incomplete_message msg (missing set_iter k config))
          \/ exists b, Call.bind (init_params k) config = inr b
                       /\ init_body k b = inl e)
  end
  /\ (forall e, Call.bind (init_params k) config = inl e ->
        create_config set_iter k config msg
        = inl (BriefcaseConfigError
                 (incomplete_message msg (missing set_iter k config)))).
Proof.
  unfold create_config, Call.construct. split.
  - destruct (Call.bind (init_params k) config) as [e|b] eqn:Hbind.
    + pose proof (bind_error _ _ _ Hbind) as He. destruct e; try discriminate.
      split; [done|by left].
    + destruct (init_body k b) as [e|obj] eqn:Hbody; [|by exists b].
      destruct e; (split; [done|]); try (right; by exists b). by left.
  - intros e Hbind. rewrite Hbind.
    pose proof (bind_error _ _ _ Hbind) as He. by destruct e.
Qed.

(** X2. A required option that the configuration lacks is always named
    in the report: when a parameter after the receiver is not variadic,
    has no default, is not called [self] or [kwargs] and is no key of
    the configuration, [create_config] raises [BriefcaseConfigError]
    and the quoted names of its message include that parameter. *)
Theorem create_config_names_missing_parameter
    (set_iter : gset string -> list string)
    (set_iter_enumerates : forall s, set_iter s ≡ₚ elements s)
    (k : klass) (config : gmap string value) (msg : string)
    (r p : param) (rest : list param) :
  init_params k = r :: rest ->
  NoDup (map name (init_params k)) ->
  p ∈ rest ->
  Call.is_variadic p = false ->
  default p = None ->
  name p <> "self" -> name p <> "kwargs" ->
  config !! name p = None ->
  exists names,
    create_config set_iter k config msg
    = inl (BriefcaseConfigError
             (msg ++ " is incomplete (missing "
                  ++ PyStr.join ", " (map PyStr.quote names) ++ ")"))
    /\ name p ∈ names.
Proof.
  intros Hparams Hnodup Hin Hvar Hdef Hself Hkwargs Hnone.
  destruct (bind_missing _ config r p rest Hparams Hnodup Hin Hvar Hdef Hnone)
    as [e Hbind].
  exists (set_iter (missing_args k config)). split.
  - unfold create_config, Call.construct. rewrite Hbind.
    pose proof (bind_error _ _ _ Hbind) as He. by destruct e.
  - apply elem_of_set_iter; [done|].
    unfold missing_args. apply elem_of_difference. split.
    + apply elem_of_required_args. split; [|done].
      exists p. split; [|done]. rewrite Hparams. by right.
    + by apply not_elem_of_dom.
Qed.

Lemma create_config_names_missing_parameter_witness :
  exists names,
    create_config Examples.reversed_iter Demo.AppConfig
                  {[ "name" := VStr "second" ]} "Configuration for 'second'"
    = inl (BriefcaseConfigError
             ("Configuration for 'second'" ++ " is incomplete (missing "
                ++ PyStr.join ", " (map PyStr.quote names) ++ ")"))
    /\ name (Param "version" POSITIONAL_OR_KEYWORD None) ∈ names.
Proof.
  apply (create_config_names_missing_parameter Examples.reversed_iter
           (fun s => Permutation_sym (Permutation_rev (elements s)))
           Demo.AppConfig {[ "name" := VStr "second" ]} "Configuration for 'second'"
           (Param "self" POSITIONAL_OR_KEYWORD None)
           (Param "version" POSITIONAL_OR_KEYWORD None)
           [Param "name" POSITIONAL_OR_KEYWORD None;
            Param "version" POSITIONAL_OR_KEYWORD None;
            Param "kwargs" VAR_KEYWORD None]);
    try (vm_compute; reflexivity); try discriminate.
  - simpl. repeat constructor; rewrite list_elem_of_In; simpl;
      intros H; repeat destruct H as [H|H]; try discriminate; done.
  - rewrite list_elem_of_In. simpl. auto.
Defined.

Lemma string_app_assoc (x y z : string) :
  ((x ++ y) ++ z)%string = (x ++ y ++ z)%string.
Proof.
  induction x as [|c x IH]; [done|].
  change (String c ((x ++ y) ++ z)%string = String c (x ++ y ++ z)%string).
  by rewrite IH.
Qed.

(** X3. With fewer than two names to report the message does not
    depend on the iteration order: when every parameter of
    [required_args] is a key of the configuration, a [TypeError] gives
    the report with an empty list, and when exactly one is absent the
    report names it alone. *)
Theorem create_config_short_report
    (set_iter : gset string -> list string)
    (set_iter_enumerates : forall s, set_iter s ≡ₚ elements s)
    (k : klass) (config : gmap string value) (msg detail : string) :
  Call.construct k config = inl (TypeError detail) ->
  (required_args k ⊆ dom config ->
   create_config set_iter k config msg
   = inl (BriefcaseConfigError (msg ++ " is incomplete (missing )")))
  /\ (forall x, missing_args k config = {[ x ]} ->
        create_config set_iter k config msg
        = inl (BriefcaseConfigError
                 (msg ++ " is incomplete (missing '" ++ x ++ "')"))).
Proof.
  intros Hfail. rewrite (create_config_TypeError _ _ _ _ _ Hfail).
  unfold incomplete_message, missing. split.
  - intros Hsub. assert (missing_args k config = ∅) as ->.
    { unfold missing_args. apply set_eq. intros x.
      rewrite elem_of_difference. split; [|by intros ?%not_elem_of_empty].
      intros [Hreq Hdom]. destruct Hdom. by apply Hsub. }
    pose proof (set_iter_enumerates ∅) as Hperm. rewrite elements_empty in Hperm.
    apply Permutation_nil_r in Hperm. by rewrite Hperm.
  - intros x ->.
    pose proof (set_iter_enumerates {[ x ]}) as Hperm.
    rewrite elements_singleton in Hperm.
    apply Permutation_singleton_r in Hperm. rewrite Hperm. simpl.
    unfold PyStr.quote. do 3 f_equal.
    change (("'" ++ x ++ "'") ++ ")")%string
      with (String "'" ((x ++ "'") ++ ")")%string).
    by rewrite string_app_assoc.
Qed.

Lemma create_config_short_report_witness :
  (required_args Examples.Strict
     ⊆ dom ({[ "version" := VStr "1.2.3"; "icon" := VStr "icon.png" ]}
              : gmap string value) ->
   create_config Examples.reversed_iter Examples.Strict
                 {[ "version" := VStr "1.2.3"; "icon" := VStr "icon.png" ]}
                 "Global configuration"
   = inl (BriefcaseConfigError ("Global configuration" ++ " is incomplete (missing )")))
  /\ (forall x,
        missing_args Examples.Strict
                     {[ "version" := VStr "1.2.3"; "icon" := VStr "icon.png" ]}
        = {[ x ]} ->
        create_config Examples.reversed_iter Examples.Strict
                      {[ "version" := VStr "1.2.3"; "icon" := VStr "icon.png" ]}
                      "Global configuration"
        = inl (BriefcaseConfigError
                 ("Global configuration" ++ " is incomplete (missing '" ++ x ++ "')"))).
Proof.
  apply (create_config_short_report Examples.reversed_iter
           (fun s => Permutation_sym (Permutation_rev (elements s)))
           Examples.Strict
           {[ "version" := VStr "1.2.3"; "icon" := VStr "icon.png" ]}
           "Global configuration"
           "__init__() got an unexpected keyword argument 'icon'").
  vm_compute. reflexivity.
Defined.

(** * Further properties of [parse_config] *)

Section ParseConfigFacts.

Variable set_iter : gset string -> list string.
Variable config_parse :
  list byte -> string -> string ->
  result (gmap string value * list (string * gmap string value)).
Variables platform output_format : string.
Variables GLOBAL_CONFIG_CLASS APP_CONFIG_CLASS : klass.

(** The app of a pair is created as [obj]. *)
Local Abbreviation created_as :=
  (fun (nc : string * gmap string value) (obj : instance) =>
     create_config set_iter APP_CONFIG_CLASS nc.2
                   ("Configuration for " ++ PyStr.quote nc.1) = inr obj).

Lemma create_app_configs_success (l : list (string * gmap string value))
    (objs : list instance) (s : state) :
  Forall2 created_as l objs ->
  create_app_configs set_iter APP_CONFIG_CLASS l s
  = (State (global_config s) (store_apps (apps s) (zip (l.*1) objs))
           (fs s) (requested s) (stdout s),
     inr tt).
Proof.
  intros Hall. revert s. induction Hall as [|[n c] obj l objs Hobj Hall IH]; intros s.
  - by destruct s.
  - simpl in *. unfold bind at 1, lift. rewrite Hobj.
    unfold bind at 1, set_app. by rewrite IH.
Qed.


Lemma create_app_configs_frame (l : list (string * gmap string value)) (s : state) :
  let s' := fst (create_app_configs set_iter APP_CONFIG_CLASS l s) in
  global_config s' = global_config s /\ fs s' = fs s
  /\ requested s' = requested s /\ stdout s' = stdout s.
Proof.
  revert s. induction l as [|[n c] l IH]; intros s; simpl; [done|].
  unfold bind at 1, lift.
  destruct (create_config set_iter APP_CONFIG_CLASS c _) as [e|obj]; [done|].
  unfold bind at 1, set_app. apply (IH (State _ _ _ _ _)).
Qed.

End ParseConfigFacts.

Lemma store_apps_other (apps : gmap string instance)
    (created : list (string * instance)) (n : string) :
  n ∉ created.*1 -> store_apps apps created !! n = apps !! n.
Proof.
  revert apps. induction created as [|[m o] created IH]; intros apps Hn; [done|].
  rewrite fmap_cons, not_elem_of_cons in Hn. destruct Hn as [Hne Hn].
  unfold store_apps in *. simpl. rewrite IH by done. by rewrite lookup_insert_ne.
Qed.

Lemma store_apps_lookup (apps : gmap string instance)
    (created : list (string * instance)) (n : string) (o : instance) :
  NoDup (created.*1) -> (n, o) ∈ created ->
  store_apps apps created !! n = Some o.
Proof.
  revert apps. induction created as [|[m o'] created IH]; intros apps Hnodup Hin.
  - by apply elem_of_nil in Hin.
  - rewrite fmap_cons in Hnodup. apply NoDup_cons in Hnodup as [Hm Hnodup].
    apply elem_of_cons in Hin as [[= <- <-]|Hin].
    + change (store_apps (<[n := o]> apps) created !! n = Some o).
      rewrite store_apps_other by done. apply lookup_insert_eq.
    + by apply IH.
Qed.

(** X4. When the file can be read, the parser returns and every
    configuration object can be created, [parse_config] stores the
    global object and, under its name, the object of every app of the
    file, in the order of the file; apps that were known before and are
    not in the file stay as they were. *)
Theorem parse_config_stores_all
    (set_iter : gset string -> list string)
    (config_parse : list byte -> string -> string ->
                    result (gmap string value * list (string * gmap string value)))
    (platform output_format : string)
    (GLOBAL_CONFIG_CLASS APP_CONFIG_CLASS : klass)
    (filename : Fs.path) (s : state)
    (config_file : list byte) (global : gmap string value)
    (app_configs : list (string * gmap string value))
    (g : instance) (objs : list instance) :
  Fs.open_read (fs s) filename = inr config_file ->
  config_parse config_file platform output_format = inr (global, app_configs) ->
  create_config set_iter GLOBAL_CONFIG_CLASS global "Global configuration" = inr g ->
  Forall2 (fun (nc : string * gmap string value) obj =>
             create_config set_iter APP_CONFIG_CLASS nc.2
                           ("Configuration for " ++ PyStr.quote nc.1) = inr obj)
          app_configs objs ->
  let stored := store_apps (apps s) (zip (app_configs.*1) objs) in
  parse_config set_iter config_parse platform output_format
               GLOBAL_CONFIG_CLASS APP_CONFIG_CLASS filename s
  = (State (Some g) stored (fs s) (requested s) (stdout s), inr tt)
  /\ (forall n, n ∉ app_configs.*1 -> stored !! n = apps s !! n)
  /\ (NoDup (app_configs.*1) ->
      forall i nc obj, app_configs !! i = Some nc -> objs !! i = Some obj ->
                       stored !! nc.1 = Some obj).
Proof.
  intros Hopen Hparse Hglobal Hall stored. split; [|split].
  - unfold parse_config, try_except, bind at 1 2 3 4, open_read, lift,
      set_global_config.
    rewrite Hopen, Hparse, Hglobal.
    by rewrite (create_app_configs_success _ _ _ _ _ Hall).
  - intros n Hn. apply store_apps_other.
    rewrite fst_zip; [done|]. rewrite length_fmap.
    by rewrite (Forall2_length _ _ _ Hall).
  - intros Hnodup i nc obj Hnc Hobj. apply store_apps_lookup.
    + rewrite fst_zip; [done|]. rewrite length_fmap.
      by rewrite (Forall2_length _ _ _ Hall).
    + apply list_elem_of_lookup. exists i. apply lookup_zip_with_Some.
      exists nc.1, obj. split; [done|]. split; [|done].
      by rewrite list_lookup_fmap, Hnc.
Qed.

Lemma parse_config_stores_all_witness :
  let stored :=
    store_apps (apps Faulty.project)
      (zip ([("first", ({[ "name" := VStr "first"; "version" := VStr "1.2.3" ]}
                          : gmap string value))].*1)
           [({[ "name" := VStr "first"; "version" := VStr "1.2.3" ]} : instance)]) in
  parse_config elements Demo.config_parse "macOS" "app"
               Demo.GlobalConfig Demo.AppConfig ["p"; "t"] Faulty.project
  = (State (Some {[ "version" := VStr "1.2.3" ]}) stored (fs Faulty.project)
           (requested Faulty.project) (stdout Faulty.project), inr tt)
  /\ (forall n,
        n ∉ [("first", ({[ "name" := VStr "first"; "version" := VStr "1.2.3" ]}
                          : gmap string value))].*1 ->
        stored !! n = apps Faulty.project !! n)
  /\ (NoDup ([("first", ({[ "name" := VStr "first"; "version" := VStr "1.2.3" ]}
                           : gmap string value))].*1) ->
      forall i nc obj,
        [("first", ({[ "name" := VStr "first"; "version" := VStr "1.2.3" ]}
                      : gmap string value))] !! i = Some nc ->
        [({[ "name" := VStr "first"; "version" := VStr "1.2.3" ]} : instance)] !! i
        = Some obj ->
        stored !! nc.1 = Some obj).
Proof.
  apply (parse_config_stores_all elements Demo.config_parse "macOS" "app"
           Demo.GlobalConfig Demo.AppConfig ["p"; "t"] Faulty.project [x5b]
           {[ "version" := VStr "1.2.3" ]}
           [("first", {[ "name" := VStr "first"; "version" := VStr "1.2.3" ]})]
           {[ "version" := VStr "1.2.3" ]}
           [{[ "name" := VStr "first"; "version" := VStr "1.2.3" ]}]).
  - vm_compute. reflexivity.
  - vm_compute. reflexivity.
  - vm_compute. reflexivity.
  - constructor; [vm_compute; reflexivity|constructor].
Defined.



Lemma create_app_configs_keeps_apps
    (set_iter : gset string -> list string) (APP_CONFIG_CLASS : klass)
    (l : list (string * gmap string value)) (s : state) (n : string) :
  is_Some (apps s !! n) ->
  is_Some (apps (fst (create_app_configs set_iter APP_CONFIG_CLASS l s)) !! n).
Proof.
  revert s. induction l as [|[m c] l IH]; intros s Hn; simpl; [done|].
  unfold bind at 1, lift.
  destruct (create_config set_iter APP_CONFIG_CLASS c _) as [e|obj]; [done|].
  unfold bind at 1, set_app. apply IH. simpl.
  destruct (decide (m = n)) as [->|Hne];
    [rewrite lookup_insert_eq; by eexists|by rewrite lookup_insert_ne].
Qed.

(** X6. [parse_config] only ever assigns [global_config] and [apps]:
    whatever the file, the parser and the classes do, it leaves the
    file system, the request log and the output as they were, it
    removes no app that was known before, and it never raises
    [FileNotFoundError]. *)
Theorem parse_config_frame
    (set_iter : gset string -> list string)
    (config_parse : list byte -> string -> string ->
                    result (gmap string value * list (string * gmap string value)))
    (platform output_format : string)
    (GLOBAL_CONFIG_CLASS APP_CONFIG_CLASS : klass)
    (filename : Fs.path) (s : state) :
  let run := parse_config set_iter config_parse platform output_format
                          GLOBAL_CONFIG_CLASS APP_CONFIG_CLASS filename s in
  fs (fst run) = fs s
  /\ requested (fst run) = requested s
  /\ stdout (fst run) = stdout s
  /\ (forall n, is_Some (apps s !! n) -> is_Some (apps (fst run) !! n))
  /\ (forall p, snd run <> inl (FileNotFoundError p)).
Proof.
  intros run. subst run.
  destruct (parse_config set_iter config_parse platform output_format
              GLOBAL_CONFIG_CLASS APP_CONFIG_CLASS filename s) as [s' out] eqn:Hrun.
  simpl.
  assert (Hhandler : forall (s1 : state) (e : exn),
             fs s1 = fs s -> requested s1 = requested s -> stdout s1 = stdout s ->
             (forall n, is_Some (apps s !! n) -> is_Some (apps s1 !! n)) ->
             (if is_FileNotFoundError e
              then raise (A := unit)
                     (BriefcaseConfigError "configuration file not found")
              else raise e) s1 = (s', out) ->
             fs s' = fs s /\ requested s' = requested s /\ stdout s' = stdout s
             /\ (forall n, is_Some (apps s !! n) -> is_Some (apps s' !! n))
             /\ (forall p, out <> inl (FileNotFoundError p))).
  { intros s1 e ? ? ? ?. destruct e; simpl; intros [= <- <-]; repeat split; done. }
  revert Hrun. unfold parse_config, try_except, bind at 1, open_read.
  destruct (Fs.open_read (fs s) filename) as [e|config_file]; [by apply Hhandler|].
  unfold bind at 1, lift.
  destruct (config_parse config_file platform output_format)
    as [e|[global app_configs]]; [by apply Hhandler|].
  unfold bind at 1, lift.
  destruct (create_config set_iter GLOBAL_CONFIG_CLASS global _) as [e|g];
    [by apply Hhandler|].
  unfold bind at 1, set_global_config.
  set (s1 := State (Some g) (apps s) (fs s) (requested s) (stdout s)).
  pose proof (create_app_configs_frame set_iter APP_CONFIG_CLASS app_configs s1)
    as (_ & Hfs & Hreq & Hout).
  pose proof (create_app_configs_keeps_apps set_iter APP_CONFIG_CLASS app_configs s1)
    as Hkeep.
  destruct (create_app_configs set_iter APP_CONFIG_CLASS app_configs s1)
    as [s2 [e|[]]]; simpl in *.
  - by apply Hhandler.
  - intros [= <- <-]. repeat split; try done.
Qed.



(** X8. Only a missing file is reported as "configuration file not
    found": a name that leads to a directory, or through a regular
    file, makes [parse_config] raise the [OSError] of [open] and change
    nothing. *)
Theorem parse_config_not_a_file
    (set_iter : gset string -> list string)
    (config_parse : list byte -> string -> string ->
                    result (gmap string value * list (string * gmap string value)))
    (platform output_format : string)
    (GLOBAL_CONFIG_CLASS APP_CONFIG_CLASS : klass)
    (filename : Fs.path) (s : state) :
  (forall q, Fs.resolve (fs s) filename = inr q -> Fs.is_dir (fs s) q = true ->
     parse_config set_iter config_parse platform output_format
                  GLOBAL_CONFIG_CLASS APP_CONFIG_CLASS filename s
     = (s, inl (OSError "IsADirectoryError")))
  /\ (Fs.resolve (fs s) filename = inl Fs.ENOTDIR ->
      parse_config set_iter config_parse platform output_format
                   GLOBAL_CONFIG_CLASS APP_CONFIG_CLASS filename s
      = (s, inl (OSError "NotADirectoryError"))).
Proof.
  split.
  - intros q Hres Hdir.
    unfold parse_config, try_except, bind at 1, open_read, Fs.open_read.
    rewrite Hres. unfold Fs.is_dir in Hdir.
    by destruct (Fs.lookup_node (fs s) q) as [[|data]|].
  - intros Hres.
    unfold parse_config, try_except, bind at 1, open_read, Fs.open_read.
    by rewrite Hres.
Qed.

Lemma parse_config_not_a_file_witness :
  parse_config elements Demo.config_parse "macOS" "app"
               Demo.GlobalConfig Demo.AppConfig ["p"; "s"] Faulty.project
  = (Faulty.project, inl (OSError "IsADirectoryError"))
  /\ parse_config elements Demo.config_parse "macOS" "app"
                  Demo.GlobalConfig Demo.AppConfig ["p"; "t"; "x"] Faulty.project
     = (Faulty.project, inl (OSError "NotADirectoryError")).
Proof.
  split.
  - apply (proj1 (parse_config_not_a_file elements Demo.config_parse "macOS" "app"
                    Demo.GlobalConfig Demo.AppConfig ["p"; "s"] Faulty.project)
                 ["p"; "s"]).
    + vm_compute. reflexivity.
    + vm_compute. reflexivity.
  - apply (proj2 (parse_config_not_a_file elements Demo.config_parse "macOS" "app"
                    Demo.GlobalConfig Demo.AppConfig ["p"; "t"; "x"]
                    Faulty.project)).
    vm_compute. reflexivity.
Defined.

(** * Further properties of [download_url] *)

Section DownloadEffects.

Variable urlparse_path : string -> result string.
Variable int_of_str : string -> option Z.
Variable requests_get : nat -> string -> string + response.

Local Abbreviation download := (download_url urlparse_path int_of_str requests_get).

(** What a step of the download may change: the file under the handle
    [f], and the output, which only grows. *)
Local Abbreviation writes_only :=
  (fun (f : Fs.path) (s s' : state) =>
     (exists written, fs s' = Fs.write_all (fs s) f written)
     /\ global_config s' = global_config s /\ apps s' = apps s
     /\ requested s' = requested s /\ stdout s `prefix_of` stdout s').

Lemma write_chunks_any (f : Fs.path) (total : Z) (chunks : list (list byte))
    (downloaded : Z) (s : state) :
  writes_only f s (fst (write_chunks f total downloaded chunks s)).
Proof.
  revert downloaded s. induction chunks as [|data rest IH]; intros downloaded s; simpl.
  - split; [by exists []|done].
  - unfold bind at 1 2 3, write, set_fs, lift, print. simpl.
    destruct (PyNum.int_truediv _ total) as [e|done]; simpl.
    + split; [by exists [data]|done].
    + match goal with |- context [write_chunks f total ?d rest ?s1] =>
        destruct (IH d s1) as ([written Hfs] & Hgc & Hap & Hrq & Hout) end.
      simpl in *. split; [exists (data :: written); by rewrite Hfs|].
      repeat split; try done.
      etrans; [|exact Hout]. by apply prefix_app_r.
Qed.

Lemma save_any (f : Fs.path) (r : response) (s : state) :
  writes_only f s (fst (save int_of_str f r s)).
Proof.
  unfold save. destruct (content_length r) as [h|].
  - destruct (int_of_str h) as [total|]; [|split; [by exists []|done]].
    destruct (iter_content r (1024 * 1024)) as [chunks broken].
    unfold bind.
    pose proof (write_chunks_any f total chunks 0 s) as Hany.
    destruct (write_chunks f total 0 chunks s) as [s1 [e|[]]]; [done|].
    by destruct broken.
  - destruct (content r) as [err|body]; [split; [by exists []|done]|].
    split; [by exists [body]|done].
Qed.

(** What follows a 200 response, when the file name leads to a place
    where nothing is yet: a file is there afterwards, whether the
    download completes or not. *)
Lemma store_any (filename q : Fs.path) (r : response) (s : state) :
  Fs.resolve (fs s) filename = inr q ->
  Fs.lookup_node (fs s) q = None ->
  let run := (let! f := open_wb filename in
              save int_of_str f r ;; print "" LF ;; ret filename) s in
  (exists data, fs (fst run) = <[q := Fs.File data]> (fs s))
  /\ global_config (fst run) = global_config s /\ apps (fst run) = apps s
  /\ requested (fst run) = requested s /\ stdout s `prefix_of` stdout (fst run).
Proof.
  intros Hres Hnone run. subst run.
  match goal with |- context [fst ?x] => destruct x as [s' out] eqn:Hrun end.
  simpl. revert Hrun.
  unfold bind at 1, open_wb, Fs.open_wb. rewrite Hres, Hnone.
  unfold bind at 1.
  match goal with |- context [save int_of_str q r ?s1] =>
    pose proof (save_any q r s1) as ([written Hfs] & Hgc & Hap & Hrq & Hout);
    destruct (save int_of_str q r s1) as [s2 [e|[]]] end; simpl in *.
  - intros [= <- _]. split; [|done]. eexists. rewrite Hfs.
    rewrite (write_all_file _ _ []) by apply lookup_insert_eq.
    by rewrite insert_insert_eq.
  - unfold bind, print, ret. intros [= <- _]. simpl.
    split; [|repeat split; try done].
    + eexists. rewrite Hfs.
      rewrite (write_all_file _ _ []) by apply lookup_insert_eq.
      by rewrite insert_insert_eq.
    + etrans; [exact Hout|]. by apply prefix_app_r.
Qed.

(** A call on a state where the file of the URL has been written finds
    it in the cache. *)
Lemma download_url_hit_after_write (url : string) (download_path : Fs.path)
    (cache_name : string) (t0 t : gmap (list string) Fs.node) (q : Fs.path)
    (data : list byte) (s1 : state) :
  cache_name_of urlparse_path url = inr cache_name ->
  Fs.mkdir t0 download_path = inr t ->
  Fs.resolve t (Fs.div download_path cache_name) = inr q ->
  Fs.lookup_node t q = None ->
  fs s1 = <[q := Fs.File data]> t ->
  Fs.same_dirs t (fs s1)
  /\ Fs.exists_ (fs s1) (Fs.div download_path cache_name) = true
  /\ Fs.exists_ (fs s1) download_path = true
  /\ download url download_path s1
     = (with_output s1 ((cache_name ++ " already downloaded") ++ LF),
        inr (Fs.div download_path cache_name)).
Proof.
  intros Hname Hmk Hres Hnone Hfs.
  assert (Hq : q <> []) by by eapply lookup_node_None_nonempty.
  assert (Hsame : Fs.same_dirs t (fs s1)).
  { apply (same_dirs_file t (fs s1) q data); try done.
    - by rewrite Hnone.
    - rewrite Hfs. apply lookup_insert_eq.
    - intros x Hx. rewrite Hfs. by rewrite lookup_insert_ne. }
  assert (Hdirs : Fs.all_dirs (fs s1) [] download_path = true).
  { rewrite <- (all_dirs_same t) by done. by eapply mkdir_from_all_dirs. }
  assert (Hmk1 : Fs.mkdir (fs s1) download_path = inr (fs s1))
    by by apply mkdir_from_fixed.
  assert (Hex1 : Fs.exists_ (fs s1) (Fs.div download_path cache_name) = true).
  { unfold Fs.exists_, Fs.resolve.
    rewrite (resolve_from_same t (fs s1) _ _ q Hsame Hres).
    apply bool_decide_eq_true. rewrite Hfs, lookup_node_insert_eq by done.
    by eexists. }
  repeat split; try done.
  - by eapply exists_after_mkdir.
  - rewrite (download_url_hit _ _ _ _ _ _ _ _ Hname Hmk1 Hex1). by destruct s1.
Qed.

End DownloadEffects.

Lemma mkdir_from_preserves (t : gmap (list string) Fs.node) (cur p : Fs.path)
    (t' : gmap (list string) Fs.node) (x : Fs.path) (n : Fs.node) :
  Fs.mkdir_from t cur p = inr t' -> t !! x = Some n -> t' !! x = Some n.
Proof.
  revert t cur. induction p as [|c rest IH]; intros t cur Hmk Hx; simpl in Hmk.
  - by inversion Hmk; subst.
  - destruct (Fs.lookup_node t (Fs.step cur c)) as [[|d]|] eqn:Hnode.
    + by eapply IH.
    + discriminate.
    + eapply IH; [exact Hmk|]. rewrite lookup_insert_ne; [done|].
      intros <-. pose proof (lookup_node_None_nonempty _ _ Hnode).
      destruct (Fs.step cur c); [done|]. simpl in Hnode. congruence.
Qed.

Lemma exists_false_lookup (t : gmap (list string) Fs.node) (p q : Fs.path) :
  Fs.exists_ t p = false -> Fs.resolve t p = inr q -> Fs.lookup_node t q = None.
Proof.
  unfold Fs.exists_. intros Hex Hres. rewrite Hres in Hex.
  apply bool_decide_eq_false in Hex.
  destruct (Fs.lookup_node t q); [|done]. exfalso. apply Hex. by eexists.
Qed.

Section DownloadOutcomes.

Variable urlparse_path : string -> result string.
Variable int_of_str : string -> option Z.
Variable requests_get : nat -> string -> string + response.

Local Abbreviation download := (download_url urlparse_path int_of_str requests_get).

(** The four ways a call can leave the state: untouched; with the cache
    directory made and the notice printed; with the directory made and
    the request logged; or, after a 200 response, with a new file where
    there was nothing. *)
Lemma download_url_effect (url : string) (download_path : Fs.path) (s : state) :
  let s' := fst (download url download_path s) in
  s' = s
  \/ exists t,
       Fs.mkdir (fs s) download_path = inr t
       /\ ((exists notice, s' = with_output (with_fs s t) notice)
           \/ s' = with_request (with_fs s t) url
           \/ exists q data,
                Fs.lookup_node t q = None
                /\ fs s' = <[q := Fs.File data]> t
                /\ global_config s' = global_config s /\ apps s' = apps s
                /\ requested s' = (requested s ++ [url])%list
                /\ stdout s `prefix_of` stdout s').
Proof.
  intros s'. subst s'.
  destruct (cache_name_of urlparse_path url) as [e|cache_name] eqn:Hname.
  { left. unfold download_url, bind at 1, lift. by rewrite Hname. }
  destruct (Fs.mkdir (fs s) download_path) as [e|t] eqn:Hmk.
  { left. by rewrite (download_url_mkdir_fails _ _ _ _ _ _ _ _ Hname Hmk). }
  right. exists t. split; [done|].
  destruct (Fs.exists_ t (Fs.div download_path cache_name)) eqn:Hex.
  { left. rewrite (download_url_hit _ _ _ _ _ _ _ _ Hname Hmk Hex). by eexists. }
  right.
  destruct (requests_get (length (requested s)) url) as [err|r] eqn:Hget.
  { left. unfold download_url, bind at 1 2 3 4, lift, mkdir, set_fs, path_exists, get.
    rewrite Hname, Hmk. simpl. rewrite Hex. simpl. by rewrite Hget. }
  rewrite (download_url_miss _ _ _ _ _ _ _ _ _ Hname Hmk Hex Hget). cbv zeta.
  destruct (status_code r =? 404); [by left|].
  destruct (status_code r =? 200); [|by left]. simpl.
  destruct (Fs.resolve t (Fs.div download_path cache_name)) as [err|q] eqn:Hres.
  { left. unfold bind at 1, open_wb, Fs.open_wb. simpl. by rewrite Hres. }
  right. pose proof (exists_false_lookup _ _ _ Hex Hres) as Hnone.
  destruct (store_any int_of_str (Fs.div download_path cache_name) q r
              (with_request (with_fs s t) url) Hres Hnone)
    as ([data Hfs] & Hgc & Hap & Hrq & Hout).
  exists q, data. by repeat split.
Qed.

End DownloadOutcomes.

(** X9. [download_url] never overwrites or removes anything: whatever
    the URL, the network and the response, every file and directory
    that existed before the call is there unchanged after it. *)
Theorem download_url_preserves_existing
    (urlparse_path : string -> result string)
    (int_of_str : string -> option Z)
    (requests_get : nat -> string -> string + response)
    (url : string) (download_path : Fs.path) (s : state)
    (x : Fs.path) (n : Fs.node) :
  fs s !! x = Some n ->
  fs (fst (download_url urlparse_path int_of_str requests_get url download_path s))
     !! x = Some n.
Proof.
  intros Hx.
  destruct (download_url_effect urlparse_path int_of_str requests_get
              url download_path s)
    as [->|(t & Hmk & [[notice ->]|[->|(q & data & Hnone & Hfs & _)]])]; try done.
  - simpl. by eapply mkdir_from_preserves.
  - simpl. by eapply mkdir_from_preserves.
  - rewrite Hfs. pose proof (mkdir_from_preserves _ _ _ _ _ _ Hmk Hx) as Hx'.
    rewrite lookup_insert_ne; [done|]. intros <-.
    pose proof (lookup_node_None_nonempty _ _ Hnone).
    destruct q; [done|]. simpl in Hnone. congruence.
Qed.

Lemma download_url_preserves_existing_witness :
  fs (fst (download_url Demo.urlparse_path Demo.int_of_str Faulty.requests_get
                        "http://h/s" Faulty.cache Faulty.stocked))
     !! ["c"; "f"]
  = Some (Fs.File [x01]).
Proof.
  apply (download_url_preserves_existing Demo.urlparse_path Demo.int_of_str
           Faulty.requests_get "http://h/s" Faulty.cache Faulty.stocked
           ["c"; "f"] (Fs.File [x01])).
  vm_compute. reflexivity.
Defined.

(** X10. A call makes at most one request, for the URL it was given,
    leaves [global_config] and [apps] alone, and only adds to the
    output. *)
Theorem download_url_frame
    (urlparse_path : string -> result string)
    (int_of_str : string -> option Z)
    (requests_get : nat -> string -> string + response)
    (url : string) (download_path : Fs.path) (s : state) :
  let s' := fst (download_url urlparse_path int_of_str requests_get
                              url download_path s) in
  (requested s' = requested s \/ requested s' = (requested s ++ [url])%list)
  /\ global_config s' = global_config s
  /\ apps s' = apps s
  /\ stdout s `prefix_of` stdout s'.
Proof.
  intros s'. subst s'.
  destruct (download_url_effect urlparse_path int_of_str requests_get
              url download_path s)
    as [->|(t & Hmk & [[notice ->]|[->|(q & data & _ & _ & Hgc & Hap & Hrq & Hout)]])];
    simpl.
  - repeat split; auto.
  - repeat split; auto. by apply prefix_app_r.
  - repeat split; auto.
  - repeat split; auto.
Qed.

(** X11. The path a call returns exists when the call returns, and so
    does the cache directory. *)
Theorem download_url_returned_path_exists
    (urlparse_path : string -> result string)
    (int_of_str : string -> option Z)
    (requests_get : nat -> string -> string + response)
    (url : string) (download_path : Fs.path) (s s' : state) (filename : Fs.path) :
  download_url urlparse_path int_of_str requests_get url download_path s
  = (s', inr filename) ->
  Fs.exists_ (fs s') filename = true /\ Fs.exists_ (fs s') download_path = true.
Proof.
  intros Hrun.
  destruct (download_url_returns _ _ _ _ _ _ _ _ Hrun) as (path & Hpath & ->).
  set (cache_name := PyStr.last (PyStr.split "/" path)) in *.
  assert (Hname : cache_name_of urlparse_path url = inr cache_name)
    by (unfold cache_name_of; by rewrite Hpath).
  destruct (Fs.mkdir (fs s) download_path) as [e|t] eqn:Hmk.
  { rewrite (download_url_mkdir_fails _ _ _ _ _ _ _ _ Hname Hmk) in Hrun.
    discriminate. }
  destruct (Fs.exists_ t (Fs.div download_path cache_name)) eqn:Hex.
  { rewrite (download_url_hit _ _ _ _ _ _ _ _ Hname Hmk Hex) in Hrun.
    injection Hrun as <-. simpl. split; [done|by eapply exists_after_mkdir]. }
  destruct (requests_get (length (requested s)) url) as [err|r] eqn:Hget.
  { revert Hrun. unfold download_url, bind at 1 2 3 4, lift, mkdir, set_fs,
      path_exists, get.
    rewrite Hname, Hmk. simpl. rewrite Hex. simpl. by rewrite Hget. }
  rewrite (download_url_miss _ _ _ _ _ _ _ _ _ Hname Hmk Hex Hget) in Hrun.
  cbv zeta in Hrun.
  destruct (status_code r =? 404); [discriminate|].
  destruct (status_code r =? 200); [|discriminate]. simpl in Hrun.
  destruct (Fs.resolve t (Fs.div download_path cache_name)) as [err|q] eqn:Hres.
  { revert Hrun. unfold bind at 1, open_wb, Fs.open_wb. simpl. by rewrite Hres. }
  pose proof (exists_false_lookup _ _ _ Hex Hres) as Hnone.
  destruct (store_any int_of_str (Fs.div download_path cache_name) q r
              (with_request (with_fs s t) url) Hres Hnone)
    as ([data Hfs] & _).
  rewrite Hrun in Hfs. simpl in Hfs.
  by destruct (download_url_hit_after_write urlparse_path int_of_str requests_get
                 url download_path cache_name (fs s) t q data s'
                 Hname Hmk Hres Hnone Hfs) as (_ & ? & ? & _).
Qed.

Lemma download_url_returned_path_exists_witness :
  Fs.exists_
    (fs (fst (download_url Demo.urlparse_path Demo.int_of_str Faulty.requests_get
                           "http://h/s" Faulty.cache Demo.empty_state)))
    ["c"; "s"] = true
  /\ Fs.exists_
       (fs (fst (download_url Demo.urlparse_path Demo.int_of_str Faulty.requests_get
                              "http://h/s" Faulty.cache Demo.empty_state)))
       Faulty.cache = true.
Proof.
  apply (download_url_returned_path_exists Demo.urlparse_path Demo.int_of_str
           Faulty.requests_get "http://h/s" Faulty.cache Demo.empty_state
           (fst (download_url Demo.urlparse_path Demo.int_of_str Faulty.requests_get
                              "http://h/s" Faulty.cache Demo.empty_state))
           ["c"; "s"]).
  vm_compute. reflexivity.
Defined.

(** X12. A download that fails after a 200 response leaves a file
    behind, and the next call takes it for the cached download: it
    makes no request and returns the file name. *)
Theorem download_url_failed_download_is_cached
    (urlparse_path : string -> result string)
    (int_of_str : string -> option Z)
    (requests_get : nat -> string -> string + response)
    (url : string) (download_path : Fs.path) (s s1 : state)
    (cache_name : string) (t : gmap (list string) Fs.node) (r : response)
    (e : exn) :
  cache_name_of urlparse_path url = inr cache_name ->
  Fs.mkdir (fs s) download_path = inr t ->
  Fs.exists_ t (Fs.div download_path cache_name) = false ->
  requests_get (length (requested s)) url = inr r ->
  status_code r = 200 ->
  download_url urlparse_path int_of_str requests_get url download_path s
  = (s1, inl e) ->
  let filename := Fs.div download_path cache_name in
  (exists q data, Fs.resolve t filename = inr q
                  /\ fs s1 = <[q := Fs.File data]> t)
  /\ Fs.exists_ (fs s1) filename = true
  /\ download_url urlparse_path int_of_str requests_get url download_path s1
     = (with_output s1 ((cache_name ++ " already downloaded") ++ LF), inr filename).
Proof.
  intros Hname Hmk Hex Hget Hstatus Hrun filename.
  destruct (resolve_cache_file _ _ _ _ Hmk (cache_name_no_slash _ _ _ Hname) Hex)
    as (q & Hres & Hnone).
  rewrite (download_url_miss _ _ _ _ _ _ _ _ _ Hname Hmk Hex Hget) in Hrun.
  cbv zeta in Hrun. rewrite Hstatus in Hrun. simpl in Hrun.
  destruct (store_any int_of_str (Fs.div download_path cache_name) q r
              (with_request (with_fs s t) url) Hres Hnone)
    as ([data Hfs] & _).
  rewrite Hrun in Hfs. simpl in Hfs.
  destruct (download_url_hit_after_write urlparse_path int_of_str requests_get
              url download_path cache_name (fs s) t q data s1
              Hname Hmk Hres Hnone Hfs) as (_ & Hex1 & _ & Hagain).
  split; [by exists q, data|]. by split.
Qed.

Lemma download_url_failed_download_is_cached_witness :
  let filename := Fs.div Faulty.cache "b" in
  (exists q data,
     Fs.resolve Faulty.cache_tree filename = inr q
     /\ fs (fst (download_url Demo.urlparse_path Demo.int_of_str Faulty.requests_get
                              "http://h/b" Faulty.cache Demo.empty_state))
        = <[q := Fs.File data]> Faulty.cache_tree)
  /\ Fs.exists_
       (fs (fst (download_url Demo.urlparse_path Demo.int_of_str Faulty.requests_get
                              "http://h/b" Faulty.cache Demo.empty_state)))
       filename = true
  /\ download_url Demo.urlparse_path Demo.int_of_str Faulty.requests_get
                  "http://h/b" Faulty.cache
                  (fst (download_url Demo.urlparse_path Demo.int_of_str
                                     Faulty.requests_get "http://h/b" Faulty.cache
                                     Demo.empty_state))
     = (with_output
          (fst (download_url Demo.urlparse_path Demo.int_of_str Faulty.requests_get
                             "http://h/b" Faulty.cache Demo.empty_state))
          (("b" ++ " already downloaded") ++ LF),
        inr filename).
Proof.
  apply (download_url_failed_download_is_cached Demo.urlparse_path Demo.int_of_str
           Faulty.requests_get "http://h/b" Faulty.cache Demo.empty_state
           (fst (download_url Demo.urlparse_path Demo.int_of_str Faulty.requests_get
                              "http://h/b" Faulty.cache Demo.empty_state))
           "b" Faulty.cache_tree Faulty.broken
           (ExternalError "ChunkedEncodingError")).
  - vm_compute. reflexivity.
  - vm_compute. reflexivity.
  - vm_compute. reflexivity.
  - vm_compute. reflexivity.
  - reflexivity.
  - vm_compute. reflexivity.
Defined.

Section DownloadBody.

Variable urlparse_path : string -> result string.
Variable int_of_str : string -> option Z.
Variable requests_get : nat -> string -> string + response.

Variables (url : string) (download_path : Fs.path) (s : state).
Variables (cache_name : string) (t : gmap (list string) Fs.node) (r : response).

Hypothesis Hname : cache_name_of urlparse_path url = inr cache_name.
Hypothesis Hmk : Fs.mkdir (fs s) download_path = inr t.
Hypothesis Hex : Fs.exists_ t (Fs.div download_path cache_name) = false.
Hypothesis Hget : requests_get (length (requested s)) url = inr r.
Hypothesis Hstatus : status_code r = 200.

(** After a 200 response for a file that is not cached, the body is
    saved to a new, empty file. *)
Lemma download_url_after_open :
  exists q,
    Fs.resolve t (Fs.div download_path cache_name) = inr q
    /\ Fs.lookup_node t q = None
    /\ download_url urlparse_path int_of_str requests_get url download_path s
       = (save int_of_str q r ;; print "" LF ;;
          ret (Fs.div download_path cache_name))
           (State (global_config s) (apps s) (<[q := Fs.File []]> t)
                  (requested s ++ [url])%list (stdout s)).
Proof.
  destruct (resolve_cache_file _ _ _ _ Hmk (cache_name_no_slash _ _ _ Hname) Hex)
    as (q & Hres & Hnone).
  exists q. split; [done|]. split; [done|].
  rewrite (download_url_miss _ _ _ _ _ _ _ _ _ Hname Hmk Hex Hget). cbv zeta.
  rewrite Hstatus. simpl. unfold bind at 1, open_wb, Fs.open_wb. simpl.
  by rewrite Hres, Hnone.
Qed.

(** With a content-length in the range where the progress is exact:
    every chunk the stream yields is written and reported, whether the
    stream then ends or breaks. *)
Lemma download_url_streamed (h : string) (total : Z) (chunks : list (list byte))
    (broken : option string) :
  content_length r = Some h ->
  int_of_str h = Some total ->
  iter_content r 1048576 = (chunks, broken) ->
  0 < total ->
  50 * len (concat chunks) < 2 ^ 53 ->
  exists q,
    Fs.resolve t (Fs.div download_path cache_name) = inr q
    /\ Fs.lookup_node t q = None
    /\ download_url urlparse_path int_of_str requests_get url download_path s
       = let s2 := State (global_config s) (apps s)
                         (<[q := Fs.File (concat chunks)]> t)
                         (requested s ++ [url])%list
                         (stdout s ++ map (fun d => progress_line (50 * d / total))
                                          (running_totals 0 chunks))%list in
         match broken with
         | Some name => (s2, inl (ExternalError name))
         | None => (with_output s2 LF, inr (Fs.div download_path cache_name))
         end.
Proof.
  intros Hlen Hint Hiter Htotal Hbound.
  destruct download_url_after_open as (q & Hres & Hnone & ->).
  exists q. split; [done|]. split; [done|].
  unfold bind at 1, save. rewrite Hlen, Hint.
  change (1024 * 1024) with 1048576. rewrite Hiter.
  unfold bind at 1. rewrite write_chunks_progress by (simpl; lia). simpl.
  rewrite (write_all_file _ _ []) by apply lookup_insert_eq.
  rewrite insert_insert_eq. simpl.
  destruct broken; reflexivity.
Qed.

End DownloadBody.

Lemma running_totals_bounds (chunks : list (list byte)) (downloaded x : Z) :
  x ∈ running_totals downloaded chunks ->
  downloaded <= x <= downloaded + len (concat chunks).
Proof.
  revert downloaded. induction chunks as [|data rest IH]; intros downloaded Hx.
  - by apply elem_of_nil in Hx.
  - rewrite len_concat_cons. pose proof (len_nonneg data).
    pose proof (len_nonneg (concat rest)).
    simpl in Hx. apply elem_of_cons in Hx as [->|Hx]; [lia|].
    apply IH in Hx. lia.
Qed.

Lemma running_totals_last (chunks : list (list byte)) (downloaded : Z) :
  chunks <> [] ->
  exists earlier,
    running_totals downloaded chunks
    = (earlier ++ [downloaded + len (concat chunks)])%list.
Proof.
  revert downloaded. induction chunks as [|data rest IH]; intros downloaded Hne;
    [done|].
  rewrite len_concat_cons. destruct rest as [|data' rest].
  - exists []. simpl. f_equal. unfold len. simpl. lia.
  - destruct (IH (downloaded + len data) ltac:(done)) as [earlier Heq].
    exists ((downloaded + len data) :: earlier).
    change (running_totals downloaded (data :: data' :: rest))
      with ((downloaded + len data)
              :: running_totals (downloaded + len data) (data' :: rest)).
    rewrite Heq. simpl. do 2 f_equal. f_equal. lia.
Qed.

(** X13. When the stream breaks, the chunks received so far stay in the
    file: each was written and reported, the exception of the stream is
    raised, and no newline ends the progress line. *)
Theorem download_url_broken_stream
    (urlparse_path : string -> result string)
    (int_of_str : string -> option Z)
    (requests_get : nat -> string -> string + response)
    (url : string) (download_path : Fs.path) (s : state)
    (cache_name : string) (t : gmap (list string) Fs.node) (r : response)
    (h : string) (total : Z) (chunks : list (list byte)) (name : string) :
  cache_name_of urlparse_path url = inr cache_name ->
  Fs.mkdir (fs s) download_path = inr t ->
  Fs.exists_ t (Fs.div download_path cache_name) = false ->
  requests_get (length (requested s)) url = inr r ->
  status_code r = 200 ->
  content_length r = Some h ->
  int_of_str h = Some total ->
  iter_content r 1048576 = (chunks, Some name) ->
  0 < total ->
  50 * len (concat chunks) < 2 ^ 53 ->
  exists q,
    Fs.resolve t (Fs.div download_path cache_name) = inr q
    /\ download_url urlparse_path int_of_str requests_get url download_path s
       = (State (global_config s) (apps s)
                (<[q := Fs.File (concat chunks)]> t)
                (requested s ++ [url])%list
                (stdout s ++ map (fun downloaded =>
                                    progress_line (50 * downloaded / total))
                                 (running_totals 0 chunks))%list,
          inl (ExternalError name)).
Proof.
  intros Hname Hmk Hex Hget Hstatus Hlen Hint Hiter Htotal Hbound.
  destruct (download_url_streamed _ _ _ _ _ _ _ _ _ Hname Hmk Hex Hget Hstatus
              _ _ _ _ Hlen Hint Hiter Htotal Hbound) as (q & Hres & _ & Hrun).
  by exists q.
Qed.

Lemma download_url_broken_stream_witness :
  exists q,
    Fs.resolve Faulty.cache_tree (Fs.div Faulty.cache "b") = inr q
    /\ download_url Demo.urlparse_path Demo.int_of_str Faulty.requests_get
                    "http://h/b" Faulty.cache Demo.empty_state
       = (State (global_config Demo.empty_state) (apps Demo.empty_state)
                (<[q := Fs.File (concat [[x01; x02]; [x03]])]> Faulty.cache_tree)
                (requested Demo.empty_state ++ ["http://h/b"])%list
                (stdout Demo.empty_state
                 ++ map (fun downloaded => progress_line (50 * downloaded / 5))
                        (running_totals 0 [[x01; x02]; [x03]]))%list,
          inl (ExternalError "ChunkedEncodingError")).
Proof.
  apply (download_url_broken_stream Demo.urlparse_path Demo.int_of_str
           Faulty.requests_get "http://h/b" Faulty.cache Demo.empty_state "b"
           Faulty.cache_tree Faulty.broken "5" 5 [[x01; x02]; [x03]]
           "ChunkedEncodingError").
  - vm_compute. reflexivity.
  - vm_compute. reflexivity.
  - vm_compute. reflexivity.
  - vm_compute. reflexivity.
  - reflexivity.
  - reflexivity.
  - vm_compute. reflexivity.
  - reflexivity.
  - lia.
  - vm_compute. reflexivity.
Defined.

(** X14. A content-length of zero is harmless only for an empty body.
    With no chunk the download completes with an empty file; with a
    first chunk, that chunk is written and the progress computation
    then raises [ZeroDivisionError], before anything is printed. *)
Theorem download_url_zero_content_length
    (urlparse_path : string -> result string)
    (int_of_str : string -> option Z)
    (requests_get : nat -> string -> string + response)
    (url : string) (download_path : Fs.path) (s : state)
    (cache_name : string) (t : gmap (list string) Fs.node) (r : response)
    (h : string) :
  cache_name_of urlparse_path url = inr cache_name ->
  Fs.mkdir (fs s) download_path = inr t ->
  Fs.exists_ t (Fs.div download_path cache_name) = false ->
  requests_get (length (requested s)) url = inr r ->
  status_code r = 200 ->
  content_length r = Some h ->
  int_of_str h = Some 0 ->
  let run := download_url urlparse_path int_of_str requests_get url download_path s in
  exists q,
    Fs.resolve t (Fs.div download_path cache_name) = inr q
    /\ (iter_content r 1048576 = ([], None) ->
        run = (State (global_config s) (apps s) (<[q := Fs.File []]> t)
                     (requested s ++ [url])%list (stdout s ++ [LF])%list,
               inr (Fs.div download_path cache_name)))
    /\ (forall data rest broken,
          iter_content r 1048576 = (data :: rest, broken) ->
          run = (State (global_config s) (apps s) (<[q := Fs.File data]> t)
                       (requested s ++ [url])%list (stdout s),
                 inl ZeroDivisionError)).
Proof.
  intros Hname Hmk Hex Hget Hstatus Hlen Hint run. subst run.
  destruct (download_url_after_open urlparse_path int_of_str requests_get
              _ _ _ _ _ _ Hname Hmk Hex Hget Hstatus)
    as (q & Hres & _ & ->).
  exists q. split; [done|]. split.
  - intros Hiter. unfold bind at 1, save. rewrite Hlen, Hint.
    change (1024 * 1024) with 1048576. by rewrite Hiter.
  - intros data rest broken Hiter. unfold bind at 1, save. rewrite Hlen, Hint.
    change (1024 * 1024) with 1048576. rewrite Hiter.
    unfold bind at 1. simpl.
    unfold Fs.write. rewrite lookup_insert_eq. simpl.
    by rewrite insert_insert_eq.
Qed.

Lemma download_url_zero_content_length_witness :
  let run := download_url Demo.urlparse_path Demo.int_of_str Faulty.requests_get
                          "http://h/z" Faulty.cache Demo.empty_state in
  exists q,
    Fs.resolve Faulty.cache_tree (Fs.div Faulty.cache "z") = inr q
    /\ (iter_content Faulty.zero_with_body 1048576 = ([], None) ->
        run = (State (global_config Demo.empty_state) (apps Demo.empty_state)
                     (<[q := Fs.File []]> Faulty.cache_tree)
                     (requested Demo.empty_state ++ ["http://h/z"])%list
                     (stdout Demo.empty_state ++ [LF])%list,
               inr (Fs.div Faulty.cache "z")))
    /\ (forall data rest broken,
          iter_content Faulty.zero_with_body 1048576 = (data :: rest, broken) ->
          run = (State (global_config Demo.empty_state) (apps Demo.empty_state)
                       (<[q := Fs.File data]> Faulty.cache_tree)
                       (requested Demo.empty_state ++ ["http://h/z"])%list
                       (stdout Demo.empty_state),
                 inl ZeroDivisionError)).
Proof.
  apply (download_url_zero_content_length Demo.urlparse_path Demo.int_of_str
           Faulty.requests_get "http://h/z" Faulty.cache Demo.empty_state "z"
           Faulty.cache_tree Faulty.zero_with_body "0").
  - vm_compute. reflexivity.
  - vm_compute. reflexivity.
  - vm_compute. reflexivity.
  - vm_compute. reflexivity.
  - reflexivity.
  - reflexivity.
  - vm_compute. reflexivity.
Defined.

(** X15. A content-length that [int] rejects ends the download with
    [ValueError] once the file is open: an empty file is left and
    nothing is printed. *)
Theorem download_url_bad_content_length
    (urlparse_path : string -> result string)
    (int_of_str : string -> option Z)
    (requests_get : nat -> string -> string + response)
    (url : string) (download_path : Fs.path) (s : state)
    (cache_name : string) (t : gmap (list string) Fs.node) (r : response)
    (h : string) :
  cache_name_of urlparse_path url = inr cache_name ->
  Fs.mkdir (fs s) download_path = inr t ->
  Fs.exists_ t (Fs.div download_path cache_name) = false ->
  requests_get (length (requested s)) url = inr r ->
  status_code r = 200 ->
  content_length r = Some h ->
  int_of_str h = None ->
  exists q detail,
    Fs.resolve t (Fs.div download_path cache_name) = inr q
    /\ download_url urlparse_path int_of_str requests_get url download_path s
       = (State (global_config s) (apps s) (<[q := Fs.File []]> t)
                (requested s ++ [url])%list (stdout s),
          inl (ValueError detail)).
Proof.
  intros Hname Hmk Hex Hget Hstatus Hlen Hint.
  destruct (download_url_after_open urlparse_path int_of_str requests_get
              _ _ _ _ _ _ Hname Hmk Hex Hget Hstatus)
    as (q & Hres & _ & ->).
  exists q. eexists. split; [done|].
  unfold bind at 1, save. by rewrite Hlen, Hint.
Qed.

Lemma download_url_bad_content_length_witness :
  exists q detail,
    Fs.resolve Faulty.cache_tree (Fs.div Faulty.cache "o") = inr q
    /\ download_url Demo.urlparse_path Demo.int_of_str Faulty.requests_get
                    "http://h/o" Faulty.cache Demo.empty_state
       = (State (global_config Demo.empty_state) (apps Demo.empty_state)
                (<[q := Fs.File []]> Faulty.cache_tree)
                (requested Demo.empty_state ++ ["http://h/o"])%list
                (stdout Demo.empty_state),
          inl (ValueError detail)).
Proof.
  apply (download_url_bad_content_length Demo.urlparse_path Demo.int_of_str
           Faulty.requests_get "http://h/o" Faulty.cache Demo.empty_state "o"
           Faulty.cache_tree Faulty.not_a_number "five").
  - vm_compute. reflexivity.
  - vm_compute. reflexivity.
  - vm_compute. reflexivity.
  - vm_compute. reflexivity.
  - reflexivity.
  - reflexivity.
  - vm_compute. reflexivity.
Defined.

Lemma running_totals_length (chunks : list (list byte)) (downloaded : Z) :
  length (running_totals downloaded chunks) = length chunks.
Proof.
  revert downloaded. induction chunks as [|data rest IH]; intros downloaded; [done|].
  simpl. by rewrite IH.
Qed.

(** X16. When the body is no longer than the content-length announced,
    the progress never runs over: one line is printed per chunk, each
    with a bar of 50 cells and a percentage of at most 100, and when
    the body has exactly the announced length the last line before the
    newline shows the full bar and 100%. *)
Theorem download_url_progress_within_total
    (urlparse_path : string -> result string)
    (int_of_str : string -> option Z)
    (requests_get : nat -> string -> string + response)
    (url : string) (download_path : Fs.path) (s : state)
    (cache_name : string) (t : gmap (list string) Fs.node) (r : response)
    (h : string) (total : Z) (chunks : list (list byte)) :
  cache_name_of urlparse_path url = inr cache_name ->
  Fs.mkdir (fs s) download_path = inr t ->
  Fs.exists_ t (Fs.div download_path cache_name) = false ->
  requests_get (length (requested s)) url = inr r ->
  status_code r = 200 ->
  content_length r = Some h ->
  int_of_str h = Some total ->
  iter_content r 1048576 = (chunks, None) ->
  0 < total ->
  50 * total < 2 ^ 53 ->
  len (concat chunks) <= total ->
  let run := download_url urlparse_path int_of_str requests_get url download_path s in
  exists lines,
    stdout (fst run) = (stdout s ++ lines ++ [LF])%list
    /\ length lines = length chunks
    /\ Forall (fun line =>
                 exists done, 0 <= done <= 50
                              /\ 2 * done <= 100
                              /\ line = progress_line done
                              /\ length (Spec.bar_cells done) = 50%nat)
              lines
    /\ (chunks <> [] -> len (concat chunks) = total ->
        exists earlier, lines = (earlier ++ [progress_line 50])%list).
Proof.
  intros Hname Hmk Hex Hget Hstatus Hlen Hint Hiter Htotal Hbound Hfits run.
  subst run.
  destruct (download_url_streamed _ _ _ _ _ _ _ _ _ Hname Hmk Hex Hget Hstatus
              _ _ _ _ Hlen Hint Hiter Htotal ltac:(lia)) as (q & _ & _ & ->).
  cbv zeta. simpl.
  exists (map (fun d => progress_line (50 * d / total)) (running_totals 0 chunks)).
  split; [by rewrite <- app_assoc|].
  split; [by rewrite length_map, running_totals_length|]. split.
  - apply Forall_forall. intros line Hline.
    apply list_elem_of_In, in_map_iff in Hline as (d & <- & Hd).
    apply list_elem_of_In, running_totals_bounds in Hd.
    pose proof (fiftieths_bounded total d Htotal ltac:(lia)) as Hdone.
    exists (50 * d / total). split; [done|]. split; [lia|].
    split; [done|by apply bar_cells_length].
  - intros Hne Hall.
    destruct (running_totals_last chunks 0 Hne) as [earlier ->].
    exists (map (fun d => progress_line (50 * d / total)) earlier).
    rewrite map_app. simpl. do 3 f_equal.
    rewrite Hall, Z.add_0_l. apply Z.div_mul. lia.
Qed.

Lemma download_url_progress_within_total_witness :
  let run := download_url Demo.urlparse_path Demo.int_of_str Faulty.requests_get
                          "http://h/s" Faulty.cache Demo.empty_state in
  exists lines,
    stdout (fst run) = (stdout Demo.empty_state ++ lines ++ [LF])%list
    /\ length lines = length [[x01]; [x02; x03]; [x04]]
    /\ Forall (fun line =>
                 exists done, 0 <= done <= 50
                              /\ 2 * done <= 100
                              /\ line = progress_line done
                              /\ length (Spec.bar_cells done) = 50%nat)
              lines
    /\ ([[x01]; [x02; x03]; [x04]] <> [] ->
        len (concat [[x01]; [x02; x03]; [x04]]) = 4 ->
        exists earlier, lines = (earlier ++ [progress_line 50])%list).
Proof.
  apply (download_url_progress_within_total Demo.urlparse_path Demo.int_of_str
           Faulty.requests_get "http://h/s" Faulty.cache Demo.empty_state "s"
           Faulty.cache_tree Faulty.steps "4" 4 [[x01]; [x02; x03]; [x04]]).
  - vm_compute. reflexivity.
  - vm_compute. reflexivity.
  - vm_compute. reflexivity.
  - vm_compute. reflexivity.
  - reflexivity.
  - reflexivity.
  - vm_compute. reflexivity.
  - reflexivity.
  - lia.
  - vm_compute. reflexivity.
  - vm_compute. discriminate.
Defined.

(** The full bar. *)
Example progress_line_full :
  progress_line 50
  = (CR ++ "██████████████████████████████████████████████████" ++ " 100%")%string.
Proof. vm_compute. reflexivity. Qed.

(** X17. A URL whose path has no last segment (it is empty, or ends
    with a slash or with a segment that is a single dot) names no file:
    the file name is the cache directory itself, so unless [mkdir]
    fails the call returns the directory as if it were the cached file,
    and it never makes a request. *)
Theorem download_url_no_file_name
    (urlparse_path : string -> result string)
    (int_of_str : string -> option Z)
    (requests_get : nat -> string -> string + response)
    (url : string) (download_path : Fs.path) (s : state) (cache_name : string) :
  cache_name_of urlparse_path url = inr cache_name ->
  cache_name = "" \/ cache_name = "." ->
  let run := download_url urlparse_path int_of_str requests_get url download_path s in
  run = match Fs.mkdir (fs s) download_path with
        | inr t => (with_output (with_fs s t)
                      ((cache_name ++ " already downloaded") ++ LF),
                    inr download_path)
        | inl e => (s, inl e)
        end
  /\ requested (fst run) = requested s.
Proof.
  intros Hname Hcases run.
  assert (Hdiv : Fs.div download_path cache_name = download_path).
  { rewrite div_segment by (destruct Hcases as [->| ->]; done).
    by rewrite bool_decide_eq_true_2. }
  assert (Hrun : run = match Fs.mkdir (fs s) download_path with
                       | inr t => (with_output (with_fs s t)
                                     ((cache_name ++ " already downloaded") ++ LF),
                                   inr download_path)
                       | inl e => (s, inl e)
                       end).
  { subst run. destruct (Fs.mkdir (fs s) download_path) as [e|t] eqn:Hmk.
    - by eapply download_url_mkdir_fails.
    - rewrite (download_url_hit _ _ _ _ _ _ cache_name t Hname Hmk).
      + by rewrite Hdiv.
      + rewrite Hdiv. by eapply exists_after_mkdir. }
  split; [done|]. rewrite Hrun. by destruct (Fs.mkdir (fs s) download_path).
Qed.

Lemma download_url_no_file_name_witness :
  let run := download_url Demo.urlparse_path Demo.int_of_str Faulty.requests_get
                          "http://h" Faulty.cache Demo.empty_state in
  run = match Fs.mkdir (fs Demo.empty_state) Faulty.cache with
        | inr t => (with_output (with_fs Demo.empty_state t)
                      (("" ++ " already downloaded") ++ LF),
                    inr Faulty.cache)
        | inl e => (Demo.empty_state, inl e)
        end
  /\ requested (fst run) = requested Demo.empty_state.
Proof.
  apply (download_url_no_file_name Demo.urlparse_path Demo.int_of_str
           Faulty.requests_get "http://h" Faulty.cache Demo.empty_state "").
  - vm_compute. reflexivity.
  - by left.
Defined.

(** * [python_version_tag] *)

Lemma pretty_N_char_no_dot (x : N) : pretty_N_char x <> "."%char.
Proof. compute. by repeat (discriminate || case_match). Qed.

Lemma pretty_N_go_no_dot (x : N) (s : string) :
  PyStr.contains "." s = false -> PyStr.contains "." (pretty_N_go x s) = false.
Proof.
  revert s. induction (N.lt_wf_0 x) as [x _ IH]; intros s Hs.
  destruct (decide (x = 0)%N) as [->|Hx]; [by rewrite pretty_N_go_0|].
  rewrite pretty_N_go_step by lia. apply IH.
  - apply N.div_lt; lia.
  - simpl. rewrite Hs, orb_false_r. apply Ascii.eqb_neq, pretty_N_char_no_dot.
Qed.

Lemma pretty_Z_no_dot (z : Z) : PyStr.contains "." (pretty z) = false.
Proof.
  assert (Hpos : forall p : positive, PyStr.contains "." (pretty p) = false).
  { intros p. unfold pretty, pretty_positive, pretty, pretty_N.
    destruct (decide (N.pos p = 0%N)); [done|]. by apply pretty_N_go_no_dot. }
  destruct z as [|p|p]; [done|apply Hpos|].
  unfold pretty, pretty_Z.
  change (PyStr.contains "." (String "-" (pretty p)) = false).
  simpl. apply Hpos.
Qed.

(** Two strings cut at their first dot agree part by part. *)
Lemma app_dot_inj (a b c d : string) :
  PyStr.contains "." a = false -> PyStr.contains "." c = false ->
  (a ++ "." ++ b)%string = (c ++ "." ++ d)%string -> a = c /\ b = d.
Proof.
  revert c. induction a as [|x a IH]; intros [|y c] Ha Hc Heq.
  - by injection Heq.
  - injection Heq as <- _. simpl in Hc. discriminate.
  - injection Heq as -> _. simpl in Ha. discriminate.
  - injection Heq as -> Heq. simpl in Ha, Hc.
    apply orb_false_elim in Ha as [_ Ha]. apply orb_false_elim in Hc as [_ Hc].
    destruct (IH c Ha Hc Heq) as [-> ->]. done.
Qed.

(** X18. The version tag tells versions apart: equal tags come from the
    same major and the same minor number. *)
Theorem python_version_tag_inj (major minor major' minor' : Z) :
  python_version_tag major minor = python_version_tag major' minor' ->
  major = major' /\ minor = minor'.
Proof.
  unfold python_version_tag. intros Heq.
  apply app_dot_inj in Heq as [Hmajor Hminor]; try apply pretty_Z_no_dot.
  split; by apply (inj pretty).
Qed.

Lemma python_version_tag_inj_witness :
  python_version_tag 3 10 = "3.10" /\ (3 = 3 /\ 10 = 10).
Proof.
  split; [vm_compute; reflexivity|].
  apply (python_version_tag_inj 3 10 3 10). reflexivity.
Defined.

(** * The general properties on examples *)

Lemma create_config_outcomes_witness :
  let config : gmap string value := {[ "version" := VInt 1 ]} in
  match create_config elements Examples.Typed config "Global configuration" with
  | inr obj =>
      exists b, Call.bind (init_params Examples.Typed) config = inr b
                /\ init_body Examples.Typed b = inr obj
  | inl e =>
      is_TypeError e = false
      /\ (e = BriefcaseConfigError
                (incomplete_message "Global configuration"
                                    (missing elements Examples.Typed config))
          \/ exists b, Call.bind (init_params Examples.Typed) config = inr b
                       /\ init_body Examples.Typed b = inl e)
  end
  /\ (forall e, Call.bind (init_params Examples.Typed) config = inl e ->
        create_config elements Examples.Typed config "Global configuration"
        = inl (BriefcaseConfigError
                 (incomplete_message "Global configuration"
                                     (missing elements Examples.Typed config)))).
Proof.
  intros config.
  exact (create_config_outcomes elements Examples.Typed config "Global configuration").
Defined.

Lemma parse_config_frame_witness :
  let run := parse_config elements Faulty.config_parse "macOS" "app"
                          Demo.GlobalConfig Demo.AppConfig ["p"; "t"]
                          Faulty.project in
  fs (fst run) = fs Faulty.project
  /\ requested (fst run) = requested Faulty.project
  /\ stdout (fst run) = stdout Faulty.project
  /\ (forall n, is_Some (apps Faulty.project !! n) -> is_Some (apps (fst run) !! n))
  /\ (forall p, snd run <> inl (FileNotFoundError p)).
Proof.
  exact (parse_config_frame elements Faulty.config_parse "macOS" "app"
           Demo.GlobalConfig Demo.AppConfig ["p"; "t"] Faulty.project).
Defined.

Lemma download_url_frame_witness :
  let s' := fst (download_url Demo.urlparse_path Demo.int_of_str Faulty.requests_get
                              "http://h/z" Faulty.cache Demo.empty_state) in
  (requested s' = requested Demo.empty_state
   \/ requested s' = (requested Demo.empty_state ++ ["http://h/z"])%list)
  /\ global_config s' = global_config Demo.empty_state
  /\ apps s' = apps Demo.empty_state
  /\ stdout Demo.empty_state `prefix_of` stdout s'.
Proof.
  exact (download_url_frame Demo.urlparse_path Demo.int_of_str Faulty.requests_get
           "http://h/z" Faulty.cache Demo.empty_state).
Defined.
